(** * gcloud-node: the shared request pipeline

    A shallow embedding of [lib/common/service.js] and
    [lib/common/service-object.js], and the properties of the request
    pipeline they implement: URI assembly, the interceptor chain and the
    generic resource operations of [ServiceObject]; and the paging
    discipline of the stream router, whose source file
    [lib/common/stream-router.js] is not at hand and is modelled from the
    specification.

    Conventions of the embedding:
    - a JavaScript string is a [string]; its characters are code units
      below 256;
    - a JavaScript value that the code only stores, tests for truthiness or
      reads a property of is a [value]; numbers are integers;
    - a function that can throw returns a [result]; a method that also
      assigns to [this.metadata] runs in the monad [M] over the store of
      the [metadata] fields of all live instances;
    - an asynchronous collaborator (the transport, [createMethod]) is
      taken to invoke its callback exactly once, and a method of these
      classes is modelled by the arguments its callback receives. *)

From Stdlib Require Import Ascii String ZArith Lia.
From stdpp Require Import gmap strings list fin_maps.

Open Scope string_scope.
Open Scope list_scope.

(* ===================================================================== *)
(** * Results and exceptions *)
(* ===================================================================== *)

Inductive exn := TypeError.

Inductive result (A : Type) : Type :=
| Ok (a : A)
| Throw (e : exn).
Arguments Ok {A} a.
Arguments Throw {A} e.

#[global] Instance result_ret : MRet result := fun A a => Ok a.
#[global] Instance result_bind : MBind result :=
  fun A B f m => match m with Ok a => f a | Throw e => Throw e end.

(** [array.map(f)] for an [f] that can throw. *)
Fixpoint map_result {A B} (f : A -> result B) (l : list A) : result (list B) :=
  match l with
  | [] => Ok []
  | a :: l' => b ← f a; bs ← map_result f l'; Ok (b :: bs)
  end.

(* ===================================================================== *)
(** * Strings: the two regular expressions and [trim] *)
(* ===================================================================== *)

Module Str.

Definition is_slash (c : ascii) : bool := Ascii.eqb c "/".
Definition is_colon (c : ascii) : bool := Ascii.eqb c ":".

(** White space and line terminators of ECMAScript among the code units
    below 256: TAB, LF, VT, FF, CR, SP and NBSP. *)
Definition is_space (c : ascii) : bool :=
  let n := nat_of_ascii c in
  ((9 <=? n)%nat && (n <=? 13)%nat) || (n =? 32)%nat || (n =? 160)%nat.

(** The longest run of [p]-characters at the start of the string is
    dropped: what the anchored, greedy [^\/*] matches. *)
Fixpoint skip_leading (p : ascii -> bool) (s : string) : string :=
  match s with
  | String c s' => if p c then skip_leading p s' else s
  | EmptyString => s
  end.

Fixpoint all_chars (p : ascii -> bool) (s : string) : bool :=
  match s with
  | String c s' => p c && all_chars p s'
  | EmptyString => true
  end.

(** The scan for [\/*$]: the first position from which only
    [p]-characters remain up to the end of the string; the string is cut
    there. *)
Fixpoint cut_trailing (p : ascii -> bool) (s : string) : string :=
  if all_chars p s then EmptyString
  else match s with
       | String c s' => String c (cut_trailing p s')
       | EmptyString => EmptyString
       end.

(** [uriComponent.replace(/^\/*|\/*$/g, '')].  At index 0 the first
    alternative always matches, the leading slashes; from the end of that
    match (from index 1 if it was empty, where the character kept is not a
    slash) only the second alternative can match, at the first index from
    which the rest of the string is slashes. *)
Definition trimSlashes (s : string) : string :=
  cut_trailing is_slash (skip_leading is_slash s).

(** [.replace(/\/:/g, ':')]: one scan from left to right, every match of
    the two characters is replaced and the scan resumes behind it. *)
Fixpoint colonSeparators (s : string) : string :=
  match s with
  | String c s' =>
      match s' with
      | String d s'' =>
          if is_slash c && is_colon d then String ":" (colonSeparators s'')
          else String c (colonSeparators s')
      | EmptyString => s
      end
  | EmptyString => s
  end.

(** [String.prototype.trim]. *)
Definition trim (s : string) : string :=
  cut_trailing is_space (skip_leading is_space s).

(** Truthiness of a string: it is not empty. *)
Definition nonempty (s : string) : bool :=
  match s with EmptyString => false | String _ _ => true end.

(** [exec('trim')] of methmeth, as the predicate of [Array.prototype.filter]
    on strings: the item's [trim()] is truthy. *)
Definition exec_trim (s : string) : bool := nonempty (trim s).

(** ** The same operations as the specification words them *)

(** A segment trimmed of leading and trailing [c]: the characters are
    dropped from the front, then from the back. *)
Definition chars (s : string) : list ascii := list_ascii_of_string s.

Fixpoint drop_front (p : ascii -> bool) (l : list ascii) : list ascii :=
  match l with
  | c :: l' => if p c then drop_front p l' else l
  | [] => []
  end.

Definition trimmed_of (p : ascii -> bool) (s : string) : string :=
  string_of_list_ascii (rev (drop_front p (rev (drop_front p (chars s))))).

(** A blank string has white space only. *)
Definition blank (s : string) : Prop := Forall (fun c => is_space c = true) (chars s).

Definition starts_with_colon (s : string) : bool :=
  match s with String d _ => is_colon d | EmptyString => false end.

(** Every slash that a colon follows directly is removed, and nothing
    else. *)
Fixpoint without_slash_before_colon (s : string) : string :=
  match s with
  | String c s' =>
      if is_slash c && starts_with_colon s' then without_slash_before_colon s'
      else String c (without_slash_before_colon s')
  | EmptyString => EmptyString
  end.

End Str.

(* ===================================================================== *)
(** * Values, request options and interceptors *)
(* ===================================================================== *)

(** Instances of [ServiceObject] and interceptor objects are compared and
    shared by reference. *)
Definition loc := positive.
Definition iref := positive.

#[warnings="-register-all"] Inductive value : Type :=
| VUndefined
| VNull
| VBool (b : bool)
| VNumber (n : Z)
| VString (s : string)
| VInstance (l : loc)
| VObject (fields : gmap string value).

Definition truthy (v : value) : bool :=
  match v with
  | VUndefined | VNull => false
  | VBool b => b
  | VNumber n => negb (n =? 0)%Z
  | VString s => Str.nonempty s
  | VInstance _ | VObject _ => true
  end.

(** [v[k]] for a [v] that is neither [undefined] nor [null]; the instances
    of [ServiceObject] are not read this way. *)
Definition prop (k : string) (v : value) : value :=
  match v with
  | VObject fields => default VUndefined (fields !! k)
  | _ => VUndefined
  end.

(** [arguments[i]] and a formal parameter: [undefined] when not passed. *)
Definition arg (i : nat) (args : list value) : value :=
  default VUndefined (args !! i).

(** [args[i] = v] on an array: holes up to [i] read as [undefined]. *)
Definition array_set (i : nat) (v : value) (args : list value) : list value :=
  if decide (i < length args) then <[i := v]> args
  else args ++ replicate (i - length args) VUndefined ++ [v].

(** A property that holds nothing, one item or an array of items, and
    [arrify] of it. *)
Inductive maybe_array (A : Type) : Type :=
| Absent
| Single (a : A)
| Items (l : list A).
Arguments Absent {A}.
Arguments Single {A} a.
Arguments Items {A} l.

Definition arrify {A} (x : maybe_array A) : list A :=
  match x with
  | Absent => []
  | Single a => [a]
  | Items l => l
  end.

(** The request options: every property is optional. *)
Record ReqOpts : Type := mkReqOpts {
  uri : option string;
  method : option string;
  json : option value;
  headers : option (gmap string string);
  interceptors_ : maybe_array iref
}.

Definition with_uri (u : string) (r : ReqOpts) : ReqOpts :=
  mkReqOpts (Some u) (method r) (json r) (headers r) (interceptors_ r).

Definition with_interceptors_ (l : list iref) (r : ReqOpts) : ReqOpts :=
  mkReqOpts (uri r) (method r) (json r) (headers r) (Items l).

(** [delete reqOpts.interceptors_]. *)
Definition delete_interceptors_ (r : ReqOpts) : ReqOpts :=
  mkReqOpts (uri r) (method r) (json r) (headers r) Absent.

(** [requestOptions.headers = requestOptions.headers || {};
     requestOptions.headers[k] = v], the interceptor of the documentation. *)
Definition set_header (k v : string) (r : ReqOpts) : ReqOpts :=
  mkReqOpts (uri r) (method r) (json r)
            (Some (<[k := v]> (default ∅ (headers r)))) (interceptors_ r).

Definition header (k : string) (r : ReqOpts) : option string :=
  default ∅ (headers r) !! k.

(** An interceptor object; its [request] property may be missing. *)
Record Interceptor : Type := mkInterceptor {
  request : option (ReqOpts -> ReqOpts)
}.

(** What a callback is invoked with. *)
Abbreviation callback_args := (list value).

(** The transport capability, by the arguments it hands to the callback. *)
Abbreviation transport := (ReqOpts -> callback_args).

(** A request that reached the transport, and the arguments the callback
    got back. *)
Record Exchange : Type := mkExchange {
  sent : ReqOpts;
  reply : callback_args
}.

(* ===================================================================== *)
(** * lib/common/service.js *)
(* ===================================================================== *)

Module Service.

Record Config : Type := mkConfig {
  config_baseUrl : string;
  config_scopes : value;
  config_projectIdRequired : value
}.

Record Options : Type := mkOptions {
  options_credentials : value;
  options_keyFilename : value;
  options_email : value;
  options_interceptors_ : maybe_array iref;
  options_projectId : option string
}.

Record t : Type := mkService {
  makeAuthenticatedRequest : transport;
  baseUrl : string;
  globalInterceptors : list iref;
  interceptors : list iref;
  projectId : option string;
  projectIdRequired : bool
}.

(** [x !== false] *)
Definition not_false (x : value) : bool :=
  match x with VBool false => false | _ => true end.

(** [function Service(config, options)].  The factory of the transport
    lives in [util.js]; it is the first argument here.  [authClient] and
    [getCredentials], which no method of the two classes reads, are left
    out. *)
Definition new (makeAuthenticatedRequestFactory : value -> value -> value -> value -> transport)
    (config : Config) (options : Options) : t :=
  {| makeAuthenticatedRequest :=
       makeAuthenticatedRequestFactory (config_scopes config)
         (options_credentials options) (options_keyFilename options)
         (options_email options);
     baseUrl := config_baseUrl config;
     globalInterceptors := arrify (options_interceptors_ options);
     interceptors := [];
     projectId := options_projectId options;
     projectIdRequired := not_false (config_projectIdRequired config) |}.

(** The array [uriComponents] once every [push] is done; a component that
    is not a string is [None]. *)
Definition uriComponents (s : t) (reqOpts : ReqOpts) : list (option string) :=
  [Some (baseUrl s)]
  ++ (if projectIdRequired s then [Some "projects"; projectId s] else [])
  ++ [uri reqOpts].

(** The callback of [.map]: [uriComponent.replace] throws on [undefined]. *)
Definition trimComponent (c : option string) : result string :=
  match c with
  | Some s => Ok (Str.trimSlashes s)
  | None => Throw TypeError
  end.

(** The value assigned to [reqOpts.uri]. *)
Definition joinedUri (s : t) (reqOpts : ReqOpts) : result string :=
  segments ← map_result trimComponent (uriComponents s reqOpts);
  Ok (Str.colonSeparators (String.concat "/" segments)).

Definition combinedInterceptors (s : t) (reqOpts : ReqOpts) : list iref :=
  globalInterceptors s ++ interceptors s ++ arrify (interceptors_ reqOpts).

(** The [while] loop: [shift()] takes the first interceptor; the loop goes
    on while there is one and it has a [request]. *)
Fixpoint runInterceptors (objs : iref -> Interceptor) (chain : list iref)
    (reqOpts : ReqOpts) : ReqOpts :=
  match chain with
  | [] => reqOpts
  | i :: rest =>
      match request (objs i) with
      | Some f => runInterceptors objs rest (f reqOpts)
      | None => reqOpts
      end
  end.

(** [Service.prototype.request]. *)
Definition request (objs : iref -> Interceptor) (s : t) (reqOpts : ReqOpts)
    : result Exchange :=
  u ← joinedUri s reqOpts;
  let reqOpts := with_uri u reqOpts in
  let combined := combinedInterceptors s reqOpts in
  let reqOpts := runInterceptors objs combined reqOpts in
  let reqOpts := delete_interceptors_ reqOpts in
  Ok (mkExchange reqOpts (makeAuthenticatedRequest s reqOpts)).

End Service.

(* ===================================================================== *)
(** * The store of cached metadata *)
(* ===================================================================== *)

(** [this.metadata] of every live instance, by the reference of the
    instance.  A method either throws or ends with a store and a value. *)
Definition M (A : Type) : Type :=
  gmap loc value -> result (A * gmap loc value).

#[global] Instance M_ret : MRet M := fun A a st => Ok (a, st).
#[global] Instance M_bind : MBind M :=
  fun A B f m st =>
    match m st with
    | Ok (a, st') => f a st'
    | Throw e => Throw e
    end.

Definition throw {A} (e : exn) : M A := fun _ => Throw e.

Definition lift {A} (r : result A) : M A :=
  fun st => match r with Ok a => Ok (a, st) | Throw e => Throw e end.

(** [instance.metadata] read through a reference. *)
Definition metadata_at (st : gmap loc value) (l : loc) : value :=
  default VUndefined (st !! l).

Definition read_metadata (l : loc) : M value :=
  fun st => Ok (metadata_at st l, st).

Definition write_metadata (l : loc) (v : value) : M unit :=
  fun st => Ok (tt, <[l := v]> st).

(* ===================================================================== *)
(** * The extend package, on request options *)
(* ===================================================================== *)

Definition or_else {A} (x y : option A) : option A :=
  match x with Some _ => x | None => y end.

Definition or_else_array {A} (x y : maybe_array A) : maybe_array A :=
  match x with Absent => y | _ => x end.

(** [extend(target, source)]: every property that [source] defines
    replaces the one of [target]. *)
Definition extend (target : ReqOpts) (source : option ReqOpts) : ReqOpts :=
  match source with
  | None => target
  | Some src =>
      {| uri := or_else (uri src) (uri target);
         method := or_else (method src) (method target);
         json := or_else (json src) (json target);
         headers := or_else (headers src) (headers target);
         interceptors_ := or_else_array (interceptors_ src) (interceptors_ target) |}
  end.

Definition fields_of (v : value) : gmap string value :=
  match v with VObject fields => fields | _ => ∅ end.

(** [extend(true, target, copy)] on one property: plain objects are
    merged key by key, [undefined] leaves the property as it is, anything
    else replaces it. *)
Fixpoint extend_value (target copy : value) {struct copy} : value :=
  match copy with
  | VObject fields =>
      let base := fields_of target in
      VObject (map_imap
                 (fun k v =>
                    match v with
                    | VUndefined => base !! k
                    | _ => Some (extend_value (default VUndefined (base !! k)) v)
                    end) fields ∪ base)
  | VUndefined => target
  | _ => copy
  end.

Definition extend_json (target copy : option value) : option value :=
  match copy with
  | None | Some VUndefined => target
  | Some v => Some (extend_value (default VUndefined target) v)
  end.

Definition extend_headers (target copy : option (gmap string string))
    : option (gmap string string) :=
  match copy with
  | None => target
  | Some h => Some (h ∪ default ∅ target)
  end.

(** [extend(true, target, source)].  [interceptors_] is assigned by
    [ServiceObject.prototype.request] before anything reads it, so its
    merge is kept to which side defines it. *)
Definition extend_deep (target : ReqOpts) (source : option ReqOpts) : ReqOpts :=
  match source with
  | None => target
  | Some src =>
      {| uri := or_else (uri src) (uri target);
         method := or_else (method src) (method target);
         json := extend_json (json target) (json src);
         headers := extend_headers (headers target) (headers src);
         interceptors_ := or_else_array (interceptors_ src) (interceptors_ target) |}
  end.

(* ===================================================================== *)
(** * lib/common/service-object.js *)
(* ===================================================================== *)

Module ServiceObject.

(** An entry of [config.methods]: a value such as [true], or an object
    whose [reqOpts] are the default request options of the method. *)
Inductive MethodEntry : Type :=
| Flag (v : value)
| Configured (reqOpts : option ReqOpts).

Definition entry_truthy (e : option MethodEntry) : bool :=
  match e with
  | None => false
  | Some (Flag v) => truthy v
  | Some (Configured _) => true
  end.

(** [(this.methods[name] || {}).reqOpts] *)
Definition entry_reqOpts (e : option MethodEntry) : option ReqOpts :=
  match e with
  | Some (Configured r) => r
  | _ => None
  end.

(** A method given by a subclass or by the caller: from its arguments
    (the callback left out) to the arguments its callback receives. *)
Abbreviation Method := (list value -> M callback_args).

(** The target of [this.parent.request]: a [Service], another
    [ServiceObject], or an object with a [request] of its own. *)
Inductive Parent (T : Type) : Type :=
| ServiceParent (s : Service.t)
| ObjectParent (o : T)
| CustomParent (request : ReqOpts -> result Exchange).
Arguments ServiceParent {T} s.
Arguments ObjectParent {T} o.
Arguments CustomParent {T} request.

(** An instance.  [overrides] are the methods a subclass defines in place
    of the shared ones; [removed] are the own properties the constructor
    set to [undefined]. *)
#[warnings="-register-all"] Inductive t : Type := mkServiceObject {
  this : loc;
  baseUrl : string;
  parent : Parent t;
  id : string;
  createMethod : option Method;
  methods : gmap string MethodEntry;
  interceptors : list iref;
  overrides : gmap string Method;
  removed : list string
}.

Record Config : Type := mkConfig {
  config_baseUrl : string;
  config_createMethod : option Method;
  config_id : string;
  config_methods : option (gmap string MethodEntry);
  config_parent : Parent t
}.

(** [self[name]] *)
Inductive slot : Type :=
| Inherited
| Redefined (f : Method)
| Removed.

Definition method_of (so : t) (name : string) : slot :=
  if bool_decide (name ∈ removed so) then Removed
  else match overrides so !! name with
       | Some f => Redefined f
       | None => Inherited
       end.

(** [Object.keys(ServiceObject.prototype)], in the order of definition. *)
Definition allMethodNames : list string :=
  ["create"; "delete"; "exists"; "get"; "getMetadata"; "setMetadata"; "request"].

Definition is_inherited (s : slot) : bool :=
  match s with Inherited => true | _ => false end.

(** [is.fn(self[name])] *)
Definition is_fn (s : slot) : bool :=
  match s with Removed => false | _ => true end.

(** The properties assigned before the [methods] are looked at, on a
    fresh object [l] whose class defines [subclass]. *)
Definition initial (l : loc) (subclass : gmap string Method) (config : Config) : t :=
  {| this := l;
     baseUrl := config_baseUrl config;
     parent := config_parent config;
     id := config_id config;
     createMethod := config_createMethod config;
     methods := default ∅ (config_methods config);
     interceptors := [];
     overrides := subclass;
     removed := [] |}.

(** The names that pass the [filter] of the constructor. *)
Definition unwanted (self : t) (wanted : gmap string MethodEntry) : list string :=
  List.filter
    (fun methodName =>
       negb (String.eqb methodName "request")
       && is_inherited (method_of self methodName)
       && negb (entry_truthy (wanted !! methodName)))
    allMethodNames.

(** [self[methodName] = undefined] for each of [names]. *)
Definition undefine (names : list string) (self : t) : t :=
  {| this := this self; baseUrl := baseUrl self; parent := parent self;
     id := id self; createMethod := createMethod self;
     methods := methods self; interceptors := interceptors self;
     overrides := overrides self; removed := names ++ removed self |}.

(** [function ServiceObject(config)] *)
Definition new (l : loc) (subclass : gmap string Method) (config : Config) : M t :=
  write_metadata l (VObject ∅);;
  let self := initial l subclass config in
  match config_methods config with
  | Some wanted => mret (undefine (unwanted self wanted) self)
  | None => mret self
  end.

(** The request options as [ServiceObject.prototype.request] passes them
    on: the joined [uri] and this instance's interceptors.  [exec('trim')]
    calls the [trim] of its item and throws when there is none. *)
Definition prepare (so_baseUrl so_id : string) (so_interceptors : list iref)
    (reqOpts : ReqOpts) : result ReqOpts :=
  match uri reqOpts with
  | None => Throw TypeError
  | Some u =>
      let uriComponents := [so_baseUrl; so_id; u] in
      let joined :=
        String.concat "/"
          (map Str.trimSlashes (List.filter Str.exec_trim uriComponents)) in
      Ok (with_interceptors_ so_interceptors (with_uri joined reqOpts))
  end.

(** [ServiceObject.prototype.request] *)
Fixpoint request (objs : iref -> Interceptor) (so : t) (reqOpts : ReqOpts)
    {struct so} : result Exchange :=
  match so with
  | mkServiceObject _ so_baseUrl so_parent so_id _ _ so_interceptors _ _ =>
      match prepare so_baseUrl so_id so_interceptors reqOpts with
      | Throw e => Throw e
      | Ok reqOpts =>
          match so_parent with
          | ServiceParent s => Service.request objs s reqOpts
          | ObjectParent o => request objs o reqOpts
          | CustomParent parent_request => parent_request reqOpts
          end
      end
  end.

(** [this.parent.request(reqOpts, callback)] *)
Definition parent_request (objs : iref -> Interceptor) (p : Parent t)
    (reqOpts : ReqOpts) : result Exchange :=
  match p with
  | ServiceParent s => Service.request objs s reqOpts
  | ObjectParent o => request objs o reqOpts
  | CustomParent parent_request => parent_request reqOpts
  end.

(** The array [combinedInterceptors] that [Service.prototype.request]
    builds when [so], a child of the service [s], delegates [reqOpts]. *)
Definition delegatedInterceptors (so : t) (s : Service.t) (reqOpts : ReqOpts)
    : result (list iref) :=
  reqOpts ← prepare (baseUrl so) (id so) (interceptors so) reqOpts;
  Ok (Service.combinedInterceptors s reqOpts).

(** [self[name].apply(self, args)]; [base] is the shared method. *)
Definition invoke (so : t) (name : string) (base : Method) (args : list value)
    : M callback_args :=
  match method_of so name with
  | Inherited => base args
  | Redefined f => f args
  | Removed => throw TypeError
  end.

(** [is.object(v)] *)
Definition is_object (v : value) : bool :=
  match v with VObject _ | VInstance _ => true | _ => false end.

(** [instance.metadata] *)
Definition metadata_of (instance : value) : M value :=
  match instance with
  | VUndefined | VNull => throw TypeError
  | VInstance l => read_metadata l
  | v => mret (prop "metadata" v)
  end.

(** The callback that [create] hands to [createMethod]. *)
Definition onCreate (so : t) (args : callback_args) : M callback_args :=
  let err := arg 0 args in
  let instance := arg 1 args in
  if truthy err then mret args
  else
    created ← metadata_of instance;
    write_metadata (this so) created;;
    mret (array_set 1 (VInstance (this so)) args).

(** The array [args] of [create] before [onCreate] is pushed; [options]
    is [None] when the callback comes first. *)
Definition createArgs (so : t) (options : option value) : list value :=
  let args := [VString (id so)] in
  match options with
  | Some o => if is_object o then args ++ [o] else args
  | None => args
  end.

(** [ServiceObject.prototype.create] *)
Definition create (so : t) (options : option value) : M callback_args :=
  let args := createArgs so options in
  match createMethod so with
  | Some createMethod => created ← createMethod args; onCreate so created
  | None => throw TypeError
  end.

(** [ServiceObject.prototype.delete] *)
Definition delete (objs : iref -> Interceptor) (so : t) : M callback_args :=
  let methodConfig := methods so !! "delete" in
  let reqOpts :=
    extend (mkReqOpts (Some "") (Some "DELETE") None None Absent)
           (entry_reqOpts methodConfig) in
  x ← lift (request objs so reqOpts);
  mret [arg 0 (reply x); arg 1 (reply x)].

(** The [reqOpts] of [getMetadata]. *)
Definition getMetadata_reqOpts (so : t) : ReqOpts :=
  let methodConfig := methods so !! "getMetadata" in
  extend (mkReqOpts (Some "") None None None Absent)
         (entry_reqOpts methodConfig).

(** [ServiceObject.prototype.getMetadata] *)
Definition getMetadata (objs : iref -> Interceptor) (so : t) : M callback_args :=
  let reqOpts := getMetadata_reqOpts so in
  x ← lift (request objs so reqOpts);
  let err := arg 0 (reply x) in
  let resp := arg 1 (reply x) in
  if truthy err then mret [err; VNull; resp]
  else
    write_metadata (this so) resp;;
    cached ← read_metadata (this so);
    mret [VNull; cached; resp].

(** The [reqOpts] of [setMetadata]. *)
Definition setMetadata_reqOpts (so : t) (metadata : value) : ReqOpts :=
  let methodConfig := methods so !! "setMetadata" in
  extend_deep (mkReqOpts (Some "") (Some "PATCH") (Some metadata) None Absent)
              (entry_reqOpts methodConfig).

(** [ServiceObject.prototype.setMetadata] *)
Definition setMetadata (objs : iref -> Interceptor) (so : t) (metadata : value)
    : M callback_args :=
  let reqOpts := setMetadata_reqOpts so metadata in
  x ← lift (request objs so reqOpts);
  let err := arg 0 (reply x) in
  let resp := arg 1 (reply x) in
  if truthy err then mret [err; resp]
  else
    write_metadata (this so) resp;;
    mret [VNull; resp].

(** [err.code === 404] *)
Definition is_404 (err : value) : bool :=
  match prop "code" err with
  | VNumber 404 => true
  | _ => false
  end.

(** [ServiceObject.prototype.get]; [config] is [None] when the callback
    comes first. *)
Definition get (objs : iref -> Interceptor) (so : t)
    (config : option (gmap string value)) : M callback_args :=
  let config := default ∅ config in
  let autoCreate :=
    truthy (default VUndefined (config !! "autoCreate"))
    && is_fn (method_of so "create") in
  let config := base.delete "autoCreate" config in
  args ← invoke so "getMetadata" (fun _ => getMetadata objs so) [];
  let err := arg 0 args in
  let metadata := arg 1 args in
  if truthy err then
    if is_404 err && autoCreate then
      let args := if bool_decide (config = ∅) then [] else [VObject config] in
      invoke so "create" (fun args => create so (head args)) args
    else mret [err; VNull; metadata]
  else mret [VNull; VInstance (this so); metadata].

(** [ServiceObject.prototype.exists] *)
Definition exists_ (objs : iref -> Interceptor) (so : t) : M callback_args :=
  args ← invoke so "get" (fun _ => get objs so None) [];
  let err := arg 0 args in
  if truthy err then
    if is_404 err then mret [VNull; VBool false] else mret [err]
  else mret [VNull; VBool true].

End ServiceObject.

(* ===================================================================== *)
(** * The stream router *)
(* ===================================================================== *)

Module StreamRouter.

Section Router.

Context {Query Item : Type}.

(** Modelled from the spec: lib/common/stream-router.js is not among the
    sources; what [fetchPage] hands to its callback: an error, or a page
    of results and the query of the next page when there is one. *)
Inductive Page : Type :=
| PageError (error : value)
| PageResults (results : list Item) (nextQuery : option Query).

Variable fetchPage : Query -> Page.

(** The consumer ends the sequence on receiving an item for which this
    holds. *)
Variable ends_after : Item -> bool.

(** Modelled from the spec: lib/common/stream-router.js is not among the
    sources; what the sequence does, in order: it fetches a page or
    emits an item. *)
Inductive event : Type :=
| Fetch (query : Query)
| Data (item : Item).

(** Modelled from the spec: lib/common/stream-router.js is not among the
    sources; the sequence has ended normally, has ended with an error, or
    is still being read. *)
Inductive status : Type :=
| Ended
| Errored (error : value)
| Reading.

(** Modelled from the spec: lib/common/stream-router.js is not among the
    sources; the counter of emitted items has reached [maxResults], which
    caps the sequence when it is not negative. *)
Definition reached (maxResults emitted : Z) : bool :=
  (0 <=? maxResults)%Z && (emitted =? maxResults)%Z.

(** Modelled from the spec: lib/common/stream-router.js is not among the
    sources; the items of one page are emitted one at a time, until the
    cap is reached or the consumer ends the sequence.  The result is the
    items emitted, the counter, and whether emission was halted. *)
Fixpoint emit (maxResults emitted : Z) (results : list Item)
    : list Item * Z * bool :=
  match results with
  | [] => ([], emitted, false)
  | item :: rest =>
      if reached maxResults emitted then ([], emitted, true)
      else if ends_after item then ([item], (emitted + 1)%Z, true)
      else
        let '(items, n, halted) := emit maxResults (emitted + 1)%Z rest in
        (item :: items, n, halted)
  end.

(** Modelled from the spec: lib/common/stream-router.js is not among the
    sources; [runAsStream] once the consumer reads, as the events of the
    sequence in order and how it stands after [fuel] page fetches.  A
    page is fetched; an error ends the sequence; otherwise its items are
    emitted, and the next page is fetched when emission was not halted,
    the cap is not reached and the page came with a next query. *)
Fixpoint stream (fuel : nat) (maxResults emitted : Z) (query : Query)
    : list event * status :=
  match fuel with
  | O => ([], Reading)
  | S fuel' =>
      match fetchPage query with
      | PageError error => ([Fetch query], Errored error)
      | PageResults results nextQuery =>
          let '(items, n, halted) := emit maxResults emitted results in
          let events := Fetch query :: map Data items in
          if halted || reached maxResults n then (events, Ended)
          else
            match nextQuery with
            | Some query' =>
                let '(later, st) := stream fuel' maxResults n query' in
                (events ++ later, st)
            | None => (events, Ended)
            end
      end
  end.

(** Modelled from the spec: lib/common/stream-router.js is not among the
    sources; the sequence [runAsStream] produces for the parsed arguments
    [maxResults] and [query]. *)
Definition runAsStream (fuel : nat) (maxResults : Z) (query : Query)
    : list event * status :=
  stream fuel maxResults 0%Z query.

Definition is_data (e : event) : bool :=
  match e with Data _ => true | Fetch _ => false end.

Definition is_fetch (e : event) : bool :=
  match e with Fetch _ => true | Data _ => false end.

(** The items emitted and the page fetches among some events. *)
Definition emitted_count (events : list event) : nat :=
  length (List.filter is_data events).

Definition fetch_count (events : list event) : nat :=
  length (List.filter is_fetch events).

End Router.

End StreamRouter.

(* ===================================================================== *)
(** * Notions used by the statements *)
(* ===================================================================== *)

(** The chain applied as a fold in which an interceptor without a
    [request] is passed over. *)
Definition fold_skipping (objs : iref -> Interceptor) (chain : list iref)
    (reqOpts : ReqOpts) : ReqOpts :=
  fold_left
    (fun opts i =>
       match request (objs i) with
       | Some f => f opts
       | None => opts
       end) chain reqOpts.

Definition has_request (objs : iref -> Interceptor) (i : iref) : Prop :=
  is_Some (request (objs i)).

(** The interceptor writes [v] to the header [k]. *)
Definition writes_header (objs : iref -> Interceptor) (k v : string) (i : iref) : Prop :=
  exists f, request (objs i) = Some f /\ forall r, header k (f r) = Some v.

(** The interceptor leaves the header [k] as it is. *)
Definition keeps_header (objs : iref -> Interceptor) (k : string) (i : iref) : Prop :=
  exists f, request (objs i) = Some f /\ forall r, header k (f r) = header k r.

#[global] Instance blank_dec (s : string) : Decision (Str.blank s).
Proof. unfold Str.blank. apply _. Defined.

(** The interceptors at the head of the chain that have a [request], up
    to the first one that has none. *)
Fixpoint leading_requests (objs : iref -> Interceptor) (chain : list iref)
    : list iref :=
  match chain with
  | [] => []
  | i :: rest =>
      match request (objs i) with
      | Some _ => i :: leading_requests objs rest
      | None => []
      end
  end.

(** The path of a resource below its parent: the segments that are not
    blank, trimmed of slashes and joined. *)
Definition object_path (so_baseUrl so_id u : string) : string :=
  String.concat "/"
    (map (Str.trimmed_of Str.is_slash)
       (filter (fun s => ~ Str.blank s) [so_baseUrl; so_id; u])).

(** The characters of a string are not all slashes. *)
Definition has_segment (s : string) : Prop :=
  Str.trimmed_of Str.is_slash s <> "".

(* ===================================================================== *)
(** * Sample services, objects and interceptors *)
(* ===================================================================== *)

Module Sample.

Definition trace : string := "X-Cloud-Trace-Context".

(** The interceptor objects: 1 to 4 write the trace header at the global,
    service, object and call level; 5 has no [request]; 6 writes another
    header; 7 hands back request options that carry [interceptors_]. *)
Definition objs (i : iref) : Interceptor :=
  match i with
  | 1 => mkInterceptor (Some (set_header trace "global"))
  | 2 => mkInterceptor (Some (set_header trace "service"))
  | 3 => mkInterceptor (Some (set_header trace "object"))
  | 4 => mkInterceptor (Some (set_header trace "call"))
  | 6 => mkInterceptor (Some (set_header "X-Late" "yes"))
  | 7 => mkInterceptor (Some (with_interceptors_ [1]))
  | _ => mkInterceptor None
  end%positive.

(** A transport that answers with the [uri] it was sent. *)
Definition echo : transport :=
  fun r => [VNull; VString (default "" (uri r))].

(** A transport that fails with the status [code] and the body [body]. *)
Definition failing (code : Z) (body : value) : transport :=
  fun _ => [VObject {[ "code" := VNumber code ]}; body].

Definition service (send : transport) (global own : list iref) : Service.t :=
  {| Service.makeAuthenticatedRequest := send;
     Service.baseUrl := "https://www.googleapis.com/storage/v1/";
     Service.globalInterceptors := global;
     Service.interceptors := own;
     Service.projectId := Some "grape-spaceship-123";
     Service.projectIdRequired := true |}.

Definition storage : Service.t := service echo [1%positive] [2%positive].

Definition opts (u : string) (scoped : maybe_array iref) : ReqOpts :=
  mkReqOpts (Some u) None None None scoped.

Definition object (l : loc) (s : Service.t) (own : list iref)
    (create : option ServiceObject.Method) : ServiceObject.t :=
  {| ServiceObject.this := l;
     ServiceObject.baseUrl := "/b";
     ServiceObject.parent := ServiceObject.ServiceParent s;
     ServiceObject.id := "photos";
     ServiceObject.createMethod := create;
     ServiceObject.methods := ∅;
     ServiceObject.interceptors := own;
     ServiceObject.overrides := ∅;
     ServiceObject.removed := [] |}.

Definition bucket : ServiceObject.t := object 10%positive storage [3%positive] None.

(** A [createMethod] that makes the instance 20 and calls back with it
    and the response of the API. *)
Definition created_metadata : value := VObject {[ "name" := VString "photos" ]}.

Definition createBucket : ServiceObject.Method :=
  fun _ st =>
    Ok ([VNull; VInstance 20%positive; VString "apiResponse"],
        <[20%positive := created_metadata]> st).

Definition new_bucket : ServiceObject.t :=
  object 10%positive storage [3%positive] (Some createBucket).

(** A bucket whose requests fail with the status 500. *)
Definition error_body : value := VObject {[ "error" := VString "backend error" ]}.

Definition failing_bucket : ServiceObject.t :=
  object 10%positive (service (failing 500 error_body) [] []) [] None.

(** A listing in which every page has three items and a next page; the
    query is the number of the page. *)
Definition endless (page : nat) : StreamRouter.Page (Query := nat) (Item := string) :=
  StreamRouter.PageResults ["a"; "b"; "c"] (Some (S page)).

Definition never (item : string) : bool := false.

(** A bucket that is not there: its requests fail with the status 404.
    It can be created with [createBucket]. *)
Definition missing_bucket : ServiceObject.t :=
  object 10%positive (service (failing 404 error_body) [] []) []
    (Some createBucket).

(** A [createMethod] that fails with the status 409. *)
Definition conflict : list value :=
  [VObject {[ "code" := VNumber 409 ]}; VNull; VString "conflict"].

Definition createConflict : ServiceObject.Method :=
  fun _ st => Ok (conflict, st).

(** A table below a dataset below the service; the dataset has the
    interceptor 3, the table the interceptor 4. *)
Definition dataset : ServiceObject.t :=
  {| ServiceObject.this := 11%positive;
     ServiceObject.baseUrl := "/datasets";
     ServiceObject.parent := ServiceObject.ServiceParent storage;
     ServiceObject.id := "kittens";
     ServiceObject.createMethod := None;
     ServiceObject.methods := ∅;
     ServiceObject.interceptors := [3%positive];
     ServiceObject.overrides := ∅;
     ServiceObject.removed := [] |}.

Definition table : ServiceObject.t :=
  {| ServiceObject.this := 12%positive;
     ServiceObject.baseUrl := "/tables";
     ServiceObject.parent := ServiceObject.ObjectParent dataset;
     ServiceObject.id := "names";
     ServiceObject.createMethod := None;
     ServiceObject.methods := ∅;
     ServiceObject.interceptors := [4%positive];
     ServiceObject.overrides := ∅;
     ServiceObject.removed := [] |}.

End Sample.

(* ===================================================================== *)
(** * Facts about the string operations *)
(* ===================================================================== *)

Section StrFacts.

Variable p : ascii -> bool.

Lemma chars_skip_leading (s : string) :
  Str.chars (Str.skip_leading p s) = Str.drop_front p (Str.chars s).
Proof.
  induction s as [|c s IH]; simpl; [reflexivity|].
  destruct (p c); [exact IH | reflexivity].
Qed.

Lemma all_chars_forallb (s : string) :
  Str.all_chars p s = forallb p (Str.chars s).
Proof.
  induction s as [|c s IH]; simpl; [reflexivity|]. now rewrite IH.
Qed.

Lemma all_chars_skip_leading (s : string) :
  Str.all_chars p (Str.skip_leading p s) = Str.all_chars p s.
Proof.
  induction s as [|c s IH]; simpl; [reflexivity|].
  destruct (p c) eqn:Hc; simpl; [exact IH | now rewrite Hc].
Qed.

Lemma drop_front_all (l : list ascii) :
  forallb p l = true -> Str.drop_front p l = [].
Proof.
  induction l as [|c l IH]; simpl; [reflexivity|].
  destruct (p c); simpl; [exact IH | discriminate].
Qed.

Lemma drop_front_snoc (l : list ascii) (c : ascii) :
  Str.drop_front p (l ++ [c]) =
  if forallb p l then (if p c then [] else [c])
  else Str.drop_front p l ++ [c].
Proof.
  induction l as [|a l IH]; simpl.
  - destruct (p c); reflexivity.
  - destruct (p a); simpl; [exact IH | reflexivity].
Qed.

Lemma forallb_rev (l : list ascii) : forallb p (rev l) = forallb p l.
Proof.
  induction l as [|a l IH]; simpl; [reflexivity|].
  rewrite forallb_app, IH. simpl. destruct (p a), (forallb p l); reflexivity.
Qed.

Lemma drop_back_cons (c : ascii) (l : list ascii) :
  rev (Str.drop_front p (rev (c :: l))) =
  if forallb p (c :: l) then [] else c :: rev (Str.drop_front p (rev l)).
Proof.
  simpl rev at 2. rewrite drop_front_snoc, forallb_rev. simpl forallb.
  destruct (forallb p l) eqn:Hl.
  - destruct (p c); simpl; [reflexivity|].
    rewrite drop_front_all by now rewrite forallb_rev. reflexivity.
  - rewrite andb_false_r, rev_app_distr. reflexivity.
Qed.

Lemma chars_cut_trailing (s : string) :
  Str.chars (Str.cut_trailing p s) =
  rev (Str.drop_front p (rev (Str.chars s))).
Proof.
  induction s as [|c s IH]; [reflexivity|].
  change (Str.chars (String c s)) with (c :: Str.chars s).
  rewrite drop_back_cons. simpl forallb.
  rewrite <- all_chars_forallb, <- IH.
  change (Str.cut_trailing p (String c s)) with
    (if Str.all_chars p (String c s) then EmptyString
     else String c (Str.cut_trailing p s)).
  change (Str.all_chars p (String c s)) with (p c && Str.all_chars p s).
  destruct (p c && Str.all_chars p s); reflexivity.
Qed.

(** Trimming by the two scans is trimming from the front, then from the
    back. *)
Lemma trim_both_ends (s : string) :
  Str.cut_trailing p (Str.skip_leading p s) = Str.trimmed_of p s.
Proof.
  unfold Str.trimmed_of.
  rewrite <- chars_skip_leading, <- chars_cut_trailing.
  unfold Str.chars. now rewrite string_of_list_ascii_of_string.
Qed.

Lemma cut_trailing_nonempty (s : string) :
  Str.nonempty (Str.cut_trailing p s) = negb (Str.all_chars p s).
Proof.
  destruct s as [|c s]; [reflexivity|].
  change (Str.cut_trailing p (String c s)) with
    (if Str.all_chars p (String c s) then EmptyString
     else String c (Str.cut_trailing p s)).
  destruct (Str.all_chars p (String c s)); reflexivity.
Qed.

End StrFacts.

Lemma trimSlashes_trimmed (s : string) :
  Str.trimSlashes s = Str.trimmed_of Str.is_slash s.
Proof. apply trim_both_ends. Qed.

Lemma map_trimSlashes (l : list string) :
  map Str.trimSlashes l = map (Str.trimmed_of Str.is_slash) l.
Proof. apply map_ext, trimSlashes_trimmed. Qed.

Lemma exec_trim_not_blank (s : string) :
  Str.exec_trim s = true <-> ~ Str.blank s.
Proof.
  unfold Str.exec_trim, Str.trim, Str.blank.
  rewrite cut_trailing_nonempty, all_chars_skip_leading, all_chars_forallb.
  rewrite negb_true_iff, <- not_true_iff_false, forallb_forall, Forall_forall.
  split; intros H G; apply H; intros c Hc; apply G; now apply list_elem_of_In.
Qed.

Lemma filter_exec_trim (l : list string) :
  List.filter Str.exec_trim l = filter (fun s => ~ Str.blank s) l.
Proof.
  induction l as [|s l IH]; [reflexivity|].
  rewrite filter_cons. simpl. rewrite IH.
  destruct (Str.exec_trim s) eqn:E.
  - rewrite decide_True; [reflexivity|]. now apply exec_trim_not_blank.
  - rewrite decide_False; [reflexivity|].
    intros H. apply exec_trim_not_blank in H. congruence.
Qed.

(** The scan for [/:] removes the slashes that a colon follows. *)
Lemma colonSeparators_removes (s : string) :
  Str.colonSeparators s = Str.without_slash_before_colon s.
Proof.
  enough (H : Str.colonSeparators s = Str.without_slash_before_colon s /\
              forall c, Str.colonSeparators (String c s) =
                        Str.without_slash_before_colon (String c s))
    by apply H.
  induction s as [|d s [IH1 IH2]].
  - split; [reflexivity|]. intros c. simpl. now rewrite andb_false_r.
  - split; [apply IH2|]. intros c.
    change (Str.colonSeparators (String c (String d s))) with
      (if Str.is_slash c && Str.is_colon d then String ":" (Str.colonSeparators s)
       else String c (Str.colonSeparators (String d s))).
    change (Str.without_slash_before_colon (String c (String d s))) with
      (if Str.is_slash c && Str.is_colon d
       then Str.without_slash_before_colon (String d s)
       else String c (Str.without_slash_before_colon (String d s))).
    destruct (Str.is_slash c && Str.is_colon d) eqn:E.
    + apply andb_true_iff in E as [_ Hd].
      unfold Str.is_colon in Hd. apply Ascii.eqb_eq in Hd. subst d.
      change (Str.without_slash_before_colon (String ":" s)) with
        (String ":" (Str.without_slash_before_colon s)).
      now rewrite IH1.
    + now rewrite IH2.
Qed.

(* ===================================================================== *)
(** * Service.prototype.request *)
(* ===================================================================== *)

Section ServiceFacts.

Variable objs : iref -> Interceptor.

Lemma map_result_trimComponent (l : list string) :
  map_result Service.trimComponent (map Some l) = Ok (map Str.trimSlashes l).
Proof.
  induction l as [|s l IH]; [reflexivity|]. simpl map. simpl map_result.
  rewrite IH. reflexivity.
Qed.

Lemma joinedUri_strings (s : Service.t) (r : ReqOpts) (segments : list string) :
  Service.uriComponents s r = map Some segments ->
  Service.joinedUri s r =
  Ok (Str.without_slash_before_colon
        (String.concat "/" (map (Str.trimmed_of Str.is_slash) segments))).
Proof.
  intros H. unfold Service.joinedUri. rewrite H, map_result_trimComponent.
  simpl. now rewrite colonSeparators_removes, map_trimSlashes.
Qed.

Lemma request_unfold (s : Service.t) (r : ReqOpts) (u : string) :
  Service.joinedUri s r = Ok u ->
  let final :=
    delete_interceptors_
      (Service.runInterceptors objs (Service.combinedInterceptors s r) (with_uri u r)) in
  Service.request objs s r =
  Ok (mkExchange final (Service.makeAuthenticatedRequest s final)).
Proof. intros H. unfold Service.request. rewrite H. reflexivity. Qed.

Lemma request_Ok_inv (s : Service.t) (r : ReqOpts) (x : Exchange) :
  Service.request objs s r = Ok x ->
  exists u, Service.joinedUri s r = Ok u.
Proof.
  unfold Service.request. destruct (Service.joinedUri s r) as [u|e]; [eauto|].
  discriminate.
Qed.

(** A chain whose interceptors all have a [request] is applied as the
    fold. *)
Lemma runInterceptors_fold (chain : list iref) (r : ReqOpts) :
  Forall (has_request objs) chain ->
  Service.runInterceptors objs chain r = fold_skipping objs chain r.
Proof.
  intros H. revert r. induction H as [|i chain [f Hf] _ IH]; intros r.
  - reflexivity.
  - unfold fold_skipping. simpl. rewrite Hf. apply IH.
Qed.

(** The loop ends at the first interceptor without a [request]. *)
Lemma runInterceptors_ends (before after : list iref) (i : iref) (r : ReqOpts) :
  request (objs i) = None ->
  Service.runInterceptors objs (before ++ i :: after) r =
  Service.runInterceptors objs before r.
Proof.
  intros Hi. revert r. induction before as [|j before IH]; intros r; simpl.
  - now rewrite Hi.
  - destruct (request (objs j)); [apply IH | reflexivity].
Qed.

Lemma fold_skipping_keeps (k : string) (chain : list iref) (r : ReqOpts) :
  Forall (keeps_header objs k) chain ->
  header k (fold_skipping objs chain r) = header k r.
Proof.
  intros H. revert r. induction H as [|i chain [f [Hf Hk]] _ IH]; intros r.
  - reflexivity.
  - unfold fold_skipping. simpl. rewrite Hf.
    unfold fold_skipping in IH. now rewrite IH.
Qed.

Lemma keeps_has_request (k : string) (i : iref) :
  keeps_header objs k i -> has_request objs i.
Proof. intros [f [Hf _]]. unfold has_request. rewrite Hf. eauto. Qed.

(** The last interceptor to write a header decides it. *)
Lemma later_write_wins (k v : string) (before after : list iref) (j : iref)
    (r : ReqOpts) :
  Forall (has_request objs) before ->
  writes_header objs k v j ->
  Forall (keeps_header objs k) after ->
  header k (Service.runInterceptors objs (before ++ j :: after) r) = Some v.
Proof.
  intros Hb [f [Hf Hv]] Ha.
  rewrite runInterceptors_fold.
  - unfold fold_skipping. rewrite fold_left_app. simpl. rewrite Hf.
    fold (fold_skipping objs after
            (f (fold_left (fun opts i => match request (objs i) with
                                         | Some g => g opts
                                         | None => opts
                                         end) before r))).
    now rewrite fold_skipping_keeps.
  - apply Forall_app. split; [exact Hb|]. constructor.
    + unfold has_request. rewrite Hf. eauto.
    + eapply Forall_impl; [exact Ha|]. intros i. apply keeps_has_request.
Qed.

End ServiceFacts.

(** C1: Service.request applies the combined chain as a left-to-right
    fold in which an interceptor lacking a [request] is skipped and every
    later interceptor is still applied.  The code departs from this: on
    the chain 1, 5, 6, where 5 has no [request], the loop ends at 5; the
    header that 6 writes is missing from the options sent, while the fold
    that skips 5 has it. *)
Theorem request_chain_ends_at_missing_request :
  let s := Sample.service Sample.echo [1; 5; 6]%positive [] in
  let r := Sample.opts "o" Absent in
  exists x u,
    Service.request Sample.objs s r = Ok x /\
    Service.joinedUri s r = Ok u /\
    header Sample.trace (sent x) = Some "global" /\
    header "X-Late" (sent x) = None /\
    header "X-Late"
      (fold_skipping Sample.objs (Service.combinedInterceptors s r) (with_uri u r))
    = Some "yes".
Proof.
  intros s r. eexists. eexists.
  split; [reflexivity|]. split; [reflexivity|].
  repeat split; vm_compute; reflexivity.
Qed.

(** C3, as stated, fails: a request that a ServiceObject delegates to its
    Service is not run through G ++ S ++ O ++ C.  The call-scoped list
    that the options carried, here interceptor 4, is replaced by the
    object's list, and the header sent is the one the object's
    interceptor wrote. *)
Lemma delegated_chain_has_no_call_scope :
  ServiceObject.delegatedInterceptors Sample.bucket Sample.storage
    (Sample.opts "o" (Items [4%positive]))
  <> Ok (Service.globalInterceptors Sample.storage
         ++ Service.interceptors Sample.storage
         ++ ServiceObject.interceptors Sample.bucket
         ++ arrify (interceptors_ (Sample.opts "o" (Items [4%positive]))))
  /\ exists x,
       ServiceObject.request Sample.objs Sample.bucket
         (Sample.opts "o" (Items [4%positive])) = Ok x /\
       header Sample.trace (sent x) = Some "object".
Proof.
  split.
  - vm_compute. intros H. discriminate H.
  - eexists. split; [reflexivity|]. vm_compute. reflexivity.
Qed.

Section ServiceClaims.

Variable objs : iref -> Interceptor.

(** C3, amended: a request made on the Service itself is run through
    G ++ S ++ C, the global list, the service's list and the call-scoped
    list of the options, each in its order of registration; a request
    delegated from a ServiceObject whose parent is the Service is run
    through G ++ S ++ O, the object's list having taken the place of the
    call-scoped one.  When every interceptor of the chain has a [request]
    the chain is applied as a left fold, so a header written by one
    interceptor and kept by those after it is sent with that value; an
    empty chain raises no error. *)
Theorem interceptor_chain (s : Service.t) (r : ReqOpts) (u : string) :
  Service.joinedUri s r = Ok u ->
  let chain :=
    Service.globalInterceptors s ++ Service.interceptors s
    ++ arrify (interceptors_ r) in
  Service.combinedInterceptors s r = chain /\
  (exists x,
     Service.request objs s r = Ok x /\
     (Forall (has_request objs) chain ->
      sent x = delete_interceptors_ (fold_skipping objs chain (with_uri u r))) /\
     (forall k v before j after,
        chain = before ++ j :: after ->
        Forall (has_request objs) before ->
        writes_header objs k v j ->
        Forall (keeps_header objs k) after ->
        header k (sent x) = Some v) /\
     (chain = [] -> sent x = delete_interceptors_ (with_uri u r))) /\
  (forall (so : ServiceObject.t) (r0 : ReqOpts),
     ServiceObject.parent so = ServiceObject.ServiceParent s ->
     ServiceObject.prepare (ServiceObject.baseUrl so) (ServiceObject.id so)
       (ServiceObject.interceptors so) r0 = Ok r ->
     ServiceObject.delegatedInterceptors so s r0
     = Ok (Service.globalInterceptors s ++ Service.interceptors s
           ++ ServiceObject.interceptors so) /\
     ServiceObject.request objs so r0 = Service.request objs s r).
Proof.
  intros Hu chain. split; [reflexivity|]. split.
  - eexists. split; [apply (request_unfold objs s r u Hu)|].
    cbn [sent]. unfold Service.combinedInterceptors. fold chain.
    split; [|split].
    + intros Hall. now rewrite runInterceptors_fold.
    + intros k v before j after Hc Hb Hj Ha. rewrite Hc.
      unfold header. cbn [delete_interceptors_ headers].
      now apply (later_write_wins objs k v before after j (with_uri u r)).
    + intros Hc. now rewrite Hc.
  - intros so r0 Hp Hr. split.
    + unfold ServiceObject.delegatedInterceptors. rewrite Hr. simpl.
      unfold Service.combinedInterceptors. do 3 f_equal.
      unfold ServiceObject.prepare in Hr.
      destruct (uri r0); [|discriminate]. now inversion Hr.
    + destruct so as [l b p i c m ints ov rm]. simpl in Hp, Hr |- *.
      rewrite Hr. subst p. reflexivity.
Qed.

(** C4: whatever Service.request hands to [makeAuthenticatedRequest] has
    no [interceptors_] property, also when an interceptor put one on the
    options it returned. *)
Theorem transport_sees_no_interceptors (s : Service.t) (r : ReqOpts) (x : Exchange) :
  Service.request objs s r = Ok x ->
  reply x = Service.makeAuthenticatedRequest s (sent x) /\
  interceptors_ (sent x) = Absent.
Proof.
  intros H. destruct (request_Ok_inv objs s r x H) as [u Hu].
  rewrite (request_unfold objs s r u Hu) in H. inversion H. split; reflexivity.
Qed.

(** C5: [reqOpts.uri] becomes the segments [baseUrl], "projects",
    [projectId] and the [uri] given when the project is required, and
    [baseUrl] and the [uri] otherwise, each trimmed of its leading and
    trailing slashes and joined with a slash, with every slash that a
    colon follows then removed; the project is required unless the
    configuration says exactly [false]. *)
Theorem request_joins_uri (s : Service.t) (r : ReqOpts) (u : string)
    (segments : list string) :
  uri r = Some u ->
  (if Service.projectIdRequired s
   then exists p, Service.projectId s = Some p /\
                  segments = [Service.baseUrl s; "projects"; p; u]
   else segments = [Service.baseUrl s; u]) ->
  let joined :=
    Str.without_slash_before_colon
      (String.concat "/" (map (Str.trimmed_of Str.is_slash) segments)) in
  let final :=
    delete_interceptors_
      (Service.runInterceptors objs (Service.combinedInterceptors s r)
         (with_uri joined r)) in
  Service.joinedUri s r = Ok joined /\
  Service.request objs s r =
    Ok (mkExchange final (Service.makeAuthenticatedRequest s final)) /\
  (forall factory config options,
     Service.projectIdRequired (Service.new factory config options) = false
     <-> Service.config_projectIdRequired config = VBool false).
Proof.
  intros Hu Hseg joined final.
  assert (Hj : Service.joinedUri s r = Ok joined).
  { apply joinedUri_strings. unfold Service.uriComponents. rewrite Hu.
    destruct (Service.projectIdRequired s).
    - destruct Hseg as [p [Hp ->]]. rewrite Hp. reflexivity.
    - subst segments. reflexivity. }
  split; [exact Hj|]. split; [apply (request_unfold objs s r joined Hj)|].
  intros factory config options. simpl. unfold Service.not_false.
  destruct (Service.config_projectIdRequired config) as [| |[|]| | | |];
    split; intros H; try reflexivity; discriminate H.
Qed.

End ServiceClaims.

Lemma interceptor_chain_witness :
  Service.combinedInterceptors Sample.storage (Sample.opts "o" (Items [4%positive]))
  = [1; 2; 4]%positive.
Proof.
  pose proof (interceptor_chain Sample.objs Sample.storage
                (Sample.opts "o" (Items [4%positive]))
                "https://www.googleapis.com/storage/v1/projects/grape-spaceship-123/o"
                eq_refl) as W.
  cbv zeta in W. destruct W as [W _]. exact W.
Defined.

Lemma transport_sees_no_interceptors_witness :
  exists x,
    Service.request Sample.objs (Sample.service Sample.echo [7%positive] [])
      (Sample.opts "o" (Items [4%positive])) = Ok x /\
    interceptors_ (sent x) = Absent.
Proof.
  eexists. split; cycle 1.
  - eapply (transport_sees_no_interceptors Sample.objs
              (Sample.service Sample.echo [7%positive] [])
              (Sample.opts "o" (Items [4%positive]))).
    vm_compute. reflexivity.
  - vm_compute. reflexivity.
Defined.

Lemma request_joins_uri_witness :
  Service.joinedUri Sample.storage (Sample.opts "b/:list" Absent)
  = Ok "https://www.googleapis.com/storage/v1/projects/grape-spaceship-123/b:list".
Proof.
  pose proof (request_joins_uri Sample.objs Sample.storage
                (Sample.opts "b/:list" Absent) "b/:list"
                [Service.baseUrl Sample.storage; "projects";
                 "grape-spaceship-123"; "b/:list"]
                eq_refl
                (ex_intro _ "grape-spaceship-123" (conj eq_refl eq_refl))) as W.
  cbv zeta in W. destruct W as [W _]. exact W.
Defined.

(* ===================================================================== *)
(** * ServiceObject *)
(* ===================================================================== *)

Section ServiceObjectClaims.

Variable objs : iref -> Interceptor.

Lemma request_delegates (so : ServiceObject.t) (r r' : ReqOpts) :
  ServiceObject.prepare (ServiceObject.baseUrl so) (ServiceObject.id so)
    (ServiceObject.interceptors so) r = Ok r' ->
  ServiceObject.request objs so r =
  ServiceObject.parent_request objs (ServiceObject.parent so) r'.
Proof.
  destruct so as [l b p i c m ints ov rm]. simpl. intros H. rewrite H.
  destruct p; reflexivity.
Qed.

(** C6: ServiceObject.request joins with a slash those of [baseUrl], [id]
    and the [uri] given that are not blank, each trimmed of its leading
    and trailing slashes, makes the instance's interceptors the
    call-scoped ones, and hands the options to [parent.request]; from the
    empty [baseUrl], the [id] abc and the empty [uri] the path is abc. *)
Theorem object_request_joins_uri (so : ServiceObject.t) (r : ReqOpts) (u : string) :
  uri r = Some u ->
  let kept :=
    filter (fun s => ~ Str.blank s)
      [ServiceObject.baseUrl so; ServiceObject.id so; u] in
  let joined := String.concat "/" (map (Str.trimmed_of Str.is_slash) kept) in
  ServiceObject.request objs so r =
    ServiceObject.parent_request objs (ServiceObject.parent so)
      (with_interceptors_ (ServiceObject.interceptors so) (with_uri joined r))
  /\ (ServiceObject.baseUrl so = "" -> ServiceObject.id so = "abc" -> u = "" ->
      joined = "abc").
Proof.
  intros Hu kept joined. split.
  - apply request_delegates. unfold ServiceObject.prepare. rewrite Hu.
    rewrite filter_exec_trim, map_trimSlashes. reflexivity.
  - intros Hb Hi ->. subst joined kept. rewrite Hb, Hi. vm_compute. reflexivity.
Qed.

End ServiceObjectClaims.

Lemma object_request_joins_uri_witness :
  exists x,
    ServiceObject.request Sample.objs Sample.bucket (Sample.opts "/o/" Absent) = Ok x /\
    uri (sent x)
    = Some "https://www.googleapis.com/storage/v1/projects/grape-spaceship-123/b/photos/o".
Proof.
  pose proof (object_request_joins_uri Sample.objs Sample.bucket
                (Sample.opts "/o/" Absent) "/o/" eq_refl) as W.
  cbv zeta in W. destruct W as [W _].
  eexists. split; [exact W|]. vm_compute. reflexivity.
Defined.

Lemma unwanted_spec (self : ServiceObject.t) (wanted : gmap string ServiceObject.MethodEntry)
    (name : string) :
  name ∈ ServiceObject.unwanted self wanted
  <-> name ∈ ServiceObject.allMethodNames /\
      name <> "request" /\
      ServiceObject.method_of self name = ServiceObject.Inherited /\
      ServiceObject.entry_truthy (wanted !! name) = false.
Proof.
  unfold ServiceObject.unwanted.
  rewrite !list_elem_of_In, filter_In, !andb_true_iff, !negb_true_iff.
  rewrite String.eqb_neq.
  assert (Hi : ServiceObject.is_inherited (ServiceObject.method_of self name) = true
               <-> ServiceObject.method_of self name = ServiceObject.Inherited).
  { destruct (ServiceObject.method_of self name); simpl; split; congruence. }
  rewrite Hi. tauto.
Qed.

Lemma method_of_initial (l : loc) (subclass : gmap string ServiceObject.Method)
    (config : ServiceObject.Config) (name : string) :
  ServiceObject.method_of (ServiceObject.initial l subclass config) name =
  match subclass !! name with
  | Some f => ServiceObject.Redefined f
  | None => ServiceObject.Inherited
  end.
Proof.
  unfold ServiceObject.method_of, ServiceObject.initial.
  cbn [ServiceObject.removed ServiceObject.overrides].
  case_bool_decide as H; [|reflexivity]. now apply elem_of_nil in H.
Qed.

Lemma method_of_undefine (names : list string) (self : ServiceObject.t) (name : string) :
  ServiceObject.method_of (ServiceObject.undefine names self) name =
  if bool_decide (name ∈ names) then ServiceObject.Removed
  else ServiceObject.method_of self name.
Proof.
  unfold ServiceObject.method_of, ServiceObject.undefine.
  cbn [ServiceObject.removed ServiceObject.overrides].
  destruct (bool_decide (name ∈ names)) eqn:E1.
  - apply bool_decide_eq_true in E1.
    rewrite bool_decide_eq_true_2; [reflexivity|]. apply elem_of_app. now left.
  - apply bool_decide_eq_false in E1.
    destruct (bool_decide (name ∈ ServiceObject.removed self)) eqn:E2.
    + apply bool_decide_eq_true in E2.
      rewrite bool_decide_eq_true_2; [reflexivity|]. apply elem_of_app. now right.
    + apply bool_decide_eq_false in E2.
      rewrite bool_decide_eq_false_2; [reflexivity|].
      rewrite elem_of_app. tauto.
Qed.

(** C7: constructed with a [methods] map, an instance loses every shared
    method that the map has no truthy entry for, apart from [request] and
    from the methods its class defined itself, which stay as they were;
    a method with a truthy entry stays callable. *)
Theorem constructor_suppresses_methods (l : loc)
    (subclass : gmap string ServiceObject.Method) (config : ServiceObject.Config)
    (wanted : gmap string ServiceObject.MethodEntry) (st : gmap loc value) :
  ServiceObject.config_methods config = Some wanted ->
  exists so,
    ServiceObject.new l subclass config st = Ok (so, <[l := VObject ∅]> st) /\
    forall name, name ∈ ServiceObject.allMethodNames ->
      (name = "request" ->
       ServiceObject.method_of so name =
       ServiceObject.method_of (ServiceObject.initial l subclass config) name) /\
      (forall f, subclass !! name = Some f ->
                 ServiceObject.method_of so name = ServiceObject.Redefined f) /\
      (name <> "request" -> subclass !! name = None ->
       ServiceObject.entry_truthy (wanted !! name) = false ->
       ServiceObject.method_of so name = ServiceObject.Removed) /\
      (ServiceObject.entry_truthy (wanted !! name) = true ->
       ServiceObject.method_of so name =
       ServiceObject.method_of (ServiceObject.initial l subclass config) name /\
       ServiceObject.is_fn (ServiceObject.method_of so name) = true).
Proof.
  intros Hm.
  exists (ServiceObject.undefine
            (ServiceObject.unwanted (ServiceObject.initial l subclass config) wanted)
            (ServiceObject.initial l subclass config)).
  split; [unfold ServiceObject.new; rewrite Hm; reflexivity|].
  intros name Hname. rewrite method_of_undefine.
  pose proof (unwanted_spec (ServiceObject.initial l subclass config) wanted name)
    as Hspec.
  rewrite method_of_initial in *.
  case_bool_decide as Hin.
  - apply Hspec in Hin as (_ & Hreq & Hinh & Hwant).
    destruct (subclass !! name) as [f|] eqn:Hsub; [discriminate|].
    repeat split; congruence.
  - destruct (subclass !! name) as [f|] eqn:Hsub.
    + repeat split; congruence.
    + repeat split; try congruence.
      intros Hreq _ Hwant. exfalso. apply Hin, Hspec. auto.
Qed.

Lemma constructor_suppresses_methods_witness :
  exists so,
    ServiceObject.new 10%positive ∅
      (ServiceObject.mkConfig "/b" None "photos"
         (Some {[ "getMetadata" := ServiceObject.Flag (VBool true) ]})
         (ServiceObject.ServiceParent Sample.storage)) ∅
    = Ok (so, {[ 10%positive := VObject ∅ ]}) /\
    ServiceObject.method_of so "delete" = ServiceObject.Removed /\
    ServiceObject.method_of so "setMetadata" = ServiceObject.Removed /\
    ServiceObject.method_of so "getMetadata" = ServiceObject.Inherited /\
    ServiceObject.method_of so "request" = ServiceObject.Inherited.
Proof.
  destruct (constructor_suppresses_methods 10%positive ∅
              (ServiceObject.mkConfig "/b" None "photos"
                 (Some {[ "getMetadata" := ServiceObject.Flag (VBool true) ]})
                 (ServiceObject.ServiceParent Sample.storage))
              {[ "getMetadata" := ServiceObject.Flag (VBool true) ]} ∅ eq_refl)
    as [so [Hnew Hso]].
  exists so. split; [exact Hnew|].
  assert (Hin : forall name, In name ServiceObject.allMethodNames ->
                             name ∈ ServiceObject.allMethodNames)
    by (intros name; apply list_elem_of_In).
  destruct (Hso "delete") as (_ & _ & Hdelete & _); [apply Hin; simpl; tauto|].
  destruct (Hso "setMetadata") as (_ & _ & Hset & _); [apply Hin; simpl; tauto|].
  destruct (Hso "getMetadata") as (_ & _ & _ & Hget); [apply Hin; simpl; tauto|].
  destruct (Hso "request") as (Hrequest & _); [apply Hin; simpl; tauto|].
  split; [apply Hdelete; [discriminate | reflexivity | reflexivity]|].
  split; [apply Hset; [discriminate | reflexivity | reflexivity]|].
  split; [apply Hget; reflexivity | apply Hrequest; reflexivity].
Defined.

Section MetadataClaims.

Variable objs : iref -> Interceptor.

(** C8: when [createMethod] calls back without an error and with a new
    instance, [create] calls back with the same arguments except the
    second, which is the instance [create] was called on; that instance
    now caches the metadata of the new one. *)
Theorem create_returns_this_instance (so : ServiceObject.t) (options : option value)
    (createMethod : ServiceObject.Method) (st st1 : gmap loc value)
    (err : value) (created : loc) (rest : list value) :
  ServiceObject.createMethod so = Some createMethod ->
  createMethod (ServiceObject.createArgs so options) st
  = Ok (err :: VInstance created :: rest, st1) ->
  truthy err = false ->
  let st2 := <[ServiceObject.this so := metadata_at st1 created]> st1 in
  ServiceObject.create so options st
  = Ok (err :: VInstance (ServiceObject.this so) :: rest, st2) /\
  metadata_at st2 (ServiceObject.this so) = metadata_at st1 created.
Proof.
  intros Hc Hrun Herr st2. split.
  - unfold ServiceObject.create. rewrite Hc.
    unfold mbind, M_bind. rewrite Hrun.
    unfold ServiceObject.onCreate.
    change (arg 0 (err :: VInstance created :: rest)) with err.
    change (arg 1 (err :: VInstance created :: rest)) with (VInstance created).
    rewrite Herr. unfold array_set.
    rewrite decide_True by (simpl; lia). reflexivity.
  - unfold st2, metadata_at. now rewrite lookup_insert_eq.
Qed.

(** What [get] calls back with when the shared [getMetadata] fails and
    nothing is created: the third argument is the second one that
    [getMetadata] passed, which is [null]. *)
Lemma get_error_callback (so : ServiceObject.t) (config : option (gmap string value))
    (st : gmap loc value) (x : Exchange) :
  ServiceObject.method_of so "getMetadata" = ServiceObject.Inherited ->
  ServiceObject.request objs so (ServiceObject.getMetadata_reqOpts so) = Ok x ->
  truthy (arg 0 (reply x)) = true ->
  ServiceObject.is_404 (arg 0 (reply x))
  && (truthy (default VUndefined (default ∅ config !! "autoCreate"))
      && ServiceObject.is_fn (ServiceObject.method_of so "create")) = false ->
  ServiceObject.get objs so config st = Ok ([arg 0 (reply x); VNull; VNull], st).
Proof.
  intros Hslot Hreq Herr Hno.
  unfold ServiceObject.get, ServiceObject.invoke. rewrite Hslot.
  unfold ServiceObject.getMetadata, mbind, M_bind, lift. rewrite Hreq, Herr.
  cbn [mret M_ret]. change (arg 0 [arg 0 (reply x); VNull; arg 1 (reply x)])
    with (arg 0 (reply x)).
  rewrite Herr, Hno. reflexivity.
Qed.

(** C10: a [getMetadata] or [setMetadata] whose request comes back with
    an error leaves the cached metadata, and the whole store, as it was;
    one that comes back without an error caches the response body, the
    one it also hands to the callback. *)
Theorem metadata_cached_on_success_only (so : ServiceObject.t) (metadata : value)
    (st : gmap loc value) (x y : Exchange) :
  ServiceObject.request objs so (ServiceObject.getMetadata_reqOpts so) = Ok x ->
  ServiceObject.request objs so (ServiceObject.setMetadata_reqOpts so metadata) = Ok y ->
  (if truthy (arg 0 (reply x))
   then ServiceObject.getMetadata objs so st
        = Ok ([arg 0 (reply x); VNull; arg 1 (reply x)], st)
   else exists st',
       ServiceObject.getMetadata objs so st
       = Ok ([VNull; arg 1 (reply x); arg 1 (reply x)], st') /\
       metadata_at st' (ServiceObject.this so) = arg 1 (reply x)) /\
  (if truthy (arg 0 (reply y))
   then ServiceObject.setMetadata objs so metadata st
        = Ok ([arg 0 (reply y); arg 1 (reply y)], st)
   else exists st',
       ServiceObject.setMetadata objs so metadata st
       = Ok ([VNull; arg 1 (reply y)], st') /\
       metadata_at st' (ServiceObject.this so) = arg 1 (reply y)).
Proof.
  intros Hx Hy. split.
  - unfold ServiceObject.getMetadata, mbind, M_bind, lift. rewrite Hx.
    destruct (truthy (arg 0 (reply x))); [reflexivity|].
    eexists. split; [unfold write_metadata, read_metadata; cbn|].
    + unfold metadata_at. rewrite lookup_insert_eq. reflexivity.
    + unfold metadata_at. now rewrite lookup_insert_eq.
  - unfold ServiceObject.setMetadata, mbind, M_bind, lift. rewrite Hy.
    destruct (truthy (arg 0 (reply y))); [reflexivity|].
    eexists. split; [reflexivity|].
    unfold metadata_at. now rewrite lookup_insert_eq.
Qed.

End MetadataClaims.

Lemma create_returns_this_instance_witness :
  ServiceObject.create Sample.new_bucket None ∅
  = Ok ([VNull; VInstance 10%positive; VString "apiResponse"],
        <[10%positive := Sample.created_metadata]>
          (<[20%positive := Sample.created_metadata]> ∅)).
Proof.
  pose proof (create_returns_this_instance Sample.new_bucket None
                Sample.createBucket ∅
                (<[20%positive := Sample.created_metadata]> ∅)
                VNull 20%positive [VString "apiResponse"]
                eq_refl eq_refl eq_refl) as W.
  cbv zeta in W. destruct W as [W _]. exact W.
Defined.

Lemma metadata_cached_on_success_only_witness :
  exists st',
    ServiceObject.getMetadata Sample.objs Sample.bucket ∅
    = Ok ([VNull;
           VString "https://www.googleapis.com/storage/v1/projects/grape-spaceship-123/b/photos";
           VString "https://www.googleapis.com/storage/v1/projects/grape-spaceship-123/b/photos"],
          st') /\
    metadata_at st' 10%positive
    = VString "https://www.googleapis.com/storage/v1/projects/grape-spaceship-123/b/photos".
Proof.
  pose proof (metadata_cached_on_success_only Sample.objs Sample.bucket
                (VObject ∅) ∅ _ _ eq_refl eq_refl) as W.
  destruct W as [W _]. exact W.
Defined.

(** C2: when the metadata request fails and nothing is to be created,
    [get] calls back with the error, [null] and the raw response of the
    failed request.  The code departs from this: the request of the
    bucket below fails with the status 500 and a body; [getMetadata]
    calls back with the error, [null] and that body, and [get] with the
    error, [null] and [null]. *)
Theorem get_error_drops_raw_response :
  let so := Sample.failing_bucket in
  exists x,
    ServiceObject.request Sample.objs so (ServiceObject.getMetadata_reqOpts so) = Ok x /\
    ServiceObject.is_404 (arg 0 (reply x)) = false /\
    arg 1 (reply x) = Sample.error_body /\
    ServiceObject.getMetadata Sample.objs so ∅
    = Ok ([arg 0 (reply x); VNull; Sample.error_body], ∅) /\
    ServiceObject.get Sample.objs so None ∅
    = Ok ([arg 0 (reply x); VNull; VNull], ∅).
Proof.
  intros so. eexists. split; [reflexivity|].
  split; [vm_compute; reflexivity|]. split; [vm_compute; reflexivity|].
  split; [vm_compute; reflexivity|].
  apply (get_error_callback Sample.objs so None ∅); vm_compute; reflexivity.
Qed.

(* ===================================================================== *)
(** * The stream router *)
(* ===================================================================== *)

Section StreamClaims.

Context {Query Item : Type}.
Variable fetchPage : Query -> StreamRouter.Page (Query := Query) (Item := Item).
Variable ends_after : Item -> bool.

Lemma reached_false (maxResults emitted : Z) :
  (0 <= maxResults)%Z -> (emitted <= maxResults)%Z ->
  StreamRouter.reached maxResults emitted = false ->
  (emitted < maxResults)%Z.
Proof.
  unfold StreamRouter.reached. intros Hm Hc H.
  apply andb_false_iff in H as [H|H].
  - apply Z.leb_gt in H. lia.
  - apply Z.eqb_neq in H. lia.
Qed.

Lemma emit_counter (results : list Item) (maxResults emitted : Z)
    (items : list Item) (n : Z) (halted : bool) :
  StreamRouter.emit ends_after maxResults emitted results = (items, n, halted) ->
  n = (emitted + Z.of_nat (length items))%Z /\
  ((0 <= maxResults)%Z -> (emitted <= maxResults)%Z -> (n <= maxResults)%Z).
Proof.
  revert emitted items n halted.
  induction results as [|item rest IH]; intros emitted items n halted H; simpl in H.
  - inversion H; subst. simpl. lia.
  - destruct (StreamRouter.reached maxResults emitted) eqn:R.
    + inversion H; subst. simpl. lia.
    + destruct (ends_after item).
      * inversion H; subst. simpl. split; [lia|]. intros Hm Hc.
        pose proof (reached_false _ _ Hm Hc R). lia.
      * destruct (StreamRouter.emit ends_after maxResults (emitted + 1) rest)
          as [[items' n'] halted'] eqn:E.
        inversion H; subst. destruct (IH _ _ _ _ E) as [Hn Hle].
        simpl length. split; [lia|]. intros Hm Hc.
        pose proof (reached_false _ _ Hm Hc R). apply Hle; lia.
Qed.

Lemma emitted_count_app (a b : list (StreamRouter.event (Query := Query) (Item := Item))) :
  StreamRouter.emitted_count (a ++ b)
  = (StreamRouter.emitted_count a + StreamRouter.emitted_count b)%nat.
Proof.
  unfold StreamRouter.emitted_count. now rewrite List.filter_app, length_app.
Qed.

Lemma emitted_count_data (items : list Item) :
  StreamRouter.emitted_count
    (map (StreamRouter.Data (Query := Query)) items) = length items.
Proof.
  unfold StreamRouter.emitted_count.
  induction items as [|x items IH]; simpl; [reflexivity | now rewrite IH].
Qed.

(** A suffix of emitted items that holds no item is empty. *)
Lemma data_suffix_empty (items : list Item)
    (a b : list (StreamRouter.event (Query := Query) (Item := Item))) :
  map StreamRouter.Data items = a ++ b ->
  StreamRouter.emitted_count b = 0%nat -> b = [].
Proof.
  revert a. induction items as [|x items IH]; intros a H Hb; simpl in H.
  - symmetry in H. now apply app_eq_nil in H.
  - destruct a as [|e a]; simpl in H.
    + subst b. unfold StreamRouter.emitted_count in Hb. simpl in Hb. discriminate.
    + inversion H. eapply IH; eauto.
Qed.

(** The page fetched first and its items, when nothing follows them. *)
Lemma last_page_quiet (query : Query) (items : list Item) (maxResults emitted : Z)
    (before after : list (StreamRouter.event (Query := Query) (Item := Item))) :
  StreamRouter.Fetch query :: map StreamRouter.Data items = before ++ after ->
  before <> [] ->
  (emitted + Z.of_nat (length items) <= maxResults)%Z ->
  (emitted + Z.of_nat (StreamRouter.emitted_count before))%Z = maxResults ->
  after = [].
Proof.
  intros H Hne Hle Hcount.
  destruct before as [|e before]; [congruence|]. simpl in H. inversion H; subst e.
  apply (data_suffix_empty items before after); [assumption|].
  assert (Hsum : length items
                 = (StreamRouter.emitted_count before
                    + StreamRouter.emitted_count after)%nat).
  { rewrite <- emitted_count_app, <- H2. symmetry. apply emitted_count_data. }
  change (StreamRouter.emitted_count (StreamRouter.Fetch query :: before))
    with (StreamRouter.emitted_count before) in Hcount.
  lia.
Qed.

Lemma stream_capped (fuel : nat) (maxResults emitted : Z) (query : Query) :
  (0 <= maxResults)%Z -> (emitted <= maxResults)%Z ->
  let events := fst (StreamRouter.stream fetchPage ends_after fuel maxResults emitted query) in
  (emitted + Z.of_nat (StreamRouter.emitted_count events) <= maxResults)%Z /\
  forall before after,
    events = before ++ after -> before <> [] ->
    (emitted + Z.of_nat (StreamRouter.emitted_count before))%Z = maxResults ->
    after = [].
Proof.
  intros Hm. revert emitted query.
  induction fuel as [|fuel IH]; intros emitted query Hc; simpl.
  - split; [unfold StreamRouter.emitted_count; simpl; lia|].
    intros before after H Hne _. symmetry in H. apply app_eq_nil in H. tauto.
  - destruct (fetchPage query) as [error|results nextQuery].
    + simpl. split; [unfold StreamRouter.emitted_count; simpl; lia|].
      intros before after H Hne Hcount.
      apply (last_page_quiet query [] maxResults emitted before after); simpl;
        auto; lia.
    + destruct (StreamRouter.emit ends_after maxResults emitted results)
        as [[items n] halted] eqn:E.
      destruct (emit_counter _ _ _ _ _ _ E) as [Hn Hle]. specialize (Hle Hm Hc).
      assert (Hpage :
        let events := StreamRouter.Fetch query :: map StreamRouter.Data items in
        (emitted + Z.of_nat (StreamRouter.emitted_count events) <= maxResults)%Z /\
        forall before after,
          events = before ++ after -> before <> [] ->
          (emitted + Z.of_nat (StreamRouter.emitted_count before))%Z = maxResults ->
          after = []).
      { split.
        - change (StreamRouter.emitted_count
                    (StreamRouter.Fetch query :: map StreamRouter.Data items))
            with (StreamRouter.emitted_count
                    (map (StreamRouter.Data (Query := Query)) items)).
          rewrite emitted_count_data. lia.
        - intros before after H Hne Hcount.
          apply (last_page_quiet query items maxResults emitted before after);
            auto; lia. }
      destruct (halted || StreamRouter.reached maxResults n) eqn:Hstop;
        [exact Hpage|].
      destruct nextQuery as [query'|]; [|exact Hpage].
      apply orb_false_iff in Hstop as [_ Hr].
      pose proof (reached_false _ _ Hm Hle Hr) as Hlt.
      specialize (IH n query' ltac:(lia)).
      destruct (StreamRouter.stream fetchPage ends_after fuel maxResults n query')
        as [later st] eqn:El.
      simpl in IH |- *. destruct IH as [IHle IHq].
      assert (Hcnt : StreamRouter.emitted_count
                       (StreamRouter.Fetch query :: map StreamRouter.Data items)
                     = length items).
      { change (StreamRouter.emitted_count
                  (StreamRouter.Fetch query :: map StreamRouter.Data items))
          with (StreamRouter.emitted_count
                  (map (StreamRouter.Data (Query := Query)) items)).
        apply emitted_count_data. }
      split.
      * change (StreamRouter.Fetch query :: map StreamRouter.Data items ++ later)
          with ((StreamRouter.Fetch query :: map StreamRouter.Data items) ++ later).
        rewrite emitted_count_app, Hcnt. lia.
      * intros before after H Hne Hcount.
        change (StreamRouter.Fetch query :: map StreamRouter.Data items ++ later)
          with ((StreamRouter.Fetch query :: map StreamRouter.Data items) ++ later)
          in H.
        apply app_eq_app in H as [mid [[H1 H2]|[H1 H2]]].
        -- (* [before] ends inside the first page *)
           exfalso.
           assert (StreamRouter.emitted_count before <= length items)%nat.
           { rewrite <- Hcnt, H1, emitted_count_app. lia. }
           lia.
        -- (* [before] reaches into the later pages *)
           subst before. rewrite emitted_count_app, Hcnt in Hcount.
           apply (IHq mid after H2); [|lia].
           intros ->. unfold StreamRouter.emitted_count in Hcount.
           simpl in Hcount. lia.
Qed.

(** C9: with [maxResults >= 0] the sequence never emits more than
    [maxResults] items, and once that many are out nothing follows, no
    item and no page fetch, whatever next query the last page came with;
    with [maxResults = 1] and a first page of three items the sequence is
    the fetch of that page and its first item. *)
Theorem stream_stops_at_maxResults (fuel : nat) (maxResults : Z) (query : Query) :
  (0 <= maxResults)%Z ->
  let run := StreamRouter.runAsStream fetchPage ends_after fuel maxResults query in
  (Z.of_nat (StreamRouter.emitted_count (fst run)) <= maxResults)%Z /\
  (forall before after,
     fst run = before ++ after -> before <> [] ->
     Z.of_nat (StreamRouter.emitted_count before) = maxResults ->
     after = []) /\
  (forall x1 x2 x3 nextQuery,
     maxResults = 1%Z -> fuel <> 0%nat ->
     fetchPage query = StreamRouter.PageResults [x1; x2; x3] nextQuery ->
     run = ([StreamRouter.Fetch query; StreamRouter.Data x1], StreamRouter.Ended) /\
     StreamRouter.emitted_count (fst run) = 1%nat /\
     StreamRouter.fetch_count (fst run) = 1%nat).
Proof.
  intros Hm run.
  destruct (stream_capped fuel maxResults 0 query Hm Hm) as [Hle Hq].
  split; [exact Hle|]. split; [exact Hq|].
  intros x1 x2 x3 nextQuery -> Hfuel Hpage.
  assert (Hrun : run = ([StreamRouter.Fetch query; StreamRouter.Data x1],
                        StreamRouter.Ended)).
  { unfold run, StreamRouter.runAsStream.
    destruct fuel as [|fuel']; [congruence|]. simpl. rewrite Hpage. simpl.
    destruct (ends_after x1); reflexivity. }
  rewrite Hrun. repeat split.
Qed.

End StreamClaims.

Lemma stream_stops_at_maxResults_witness :
  StreamRouter.runAsStream Sample.endless Sample.never 5 1 0%nat
  = ([StreamRouter.Fetch 0%nat; StreamRouter.Data "a"], StreamRouter.Ended).
Proof.
  pose proof (stream_stops_at_maxResults Sample.endless Sample.never 5 1 0%nat
                ltac:(lia)) as W.
  cbv zeta in W. destruct W as (_ & _ & W).
  apply (W "a" "b" "c" (Some 1%nat)); [reflexivity | discriminate | reflexivity].
Defined.

(* ===================================================================== *)
(** * More on the two regular expressions *)
(* ===================================================================== *)

Lemma is_slash_true (c : ascii) : Str.is_slash c = true <-> c = "/"%char.
Proof. unfold Str.is_slash. apply Ascii.eqb_eq. Qed.

Lemma drop_front_split (l : list ascii) :
  exists n, l = replicate n "/"%char ++ Str.drop_front Str.is_slash l.
Proof.
  induction l as [|c l [n IH]].
  - exists 0%nat. reflexivity.
  - simpl. destruct (Str.is_slash c) eqn:E.
    + apply is_slash_true in E. subst c. exists (S n). simpl. now rewrite <- IH.
    + exists 0%nat. reflexivity.
Qed.

Lemma head_drop_front (l : list ascii) :
  head (Str.drop_front Str.is_slash l) <> Some "/"%char.
Proof.
  induction l as [|c l IH]; simpl; [discriminate|].
  destruct (Str.is_slash c) eqn:E; [exact IH|]. simpl. intros H.
  inversion H. subst c. discriminate E.
Qed.

Lemma drop_front_id (l : list ascii) :
  head l <> Some "/"%char -> Str.drop_front Str.is_slash l = l.
Proof.
  destruct l as [|c l]; simpl; [reflexivity|]. intros H.
  destruct (Str.is_slash c) eqn:E; [|reflexivity].
  apply is_slash_true in E. subst c. congruence.
Qed.

Lemma rev_replicate (n : nat) (c : ascii) : rev (replicate n c) = replicate n c.
Proof.
  induction n as [|n IH]; [reflexivity|]. simpl. rewrite IH.
  clear IH. induction n as [|n IH]; [reflexivity|]. simpl. now rewrite IH.
Qed.

Lemma head_rev (l : list ascii) : head (rev l) = last l.
Proof.
  induction l as [|c l IH]; [reflexivity|]. simpl rev.
  destruct l as [|d l]; [reflexivity|].
  change (last (c :: d :: l)) with (last (d :: l)). rewrite <- IH.
  simpl rev. destruct (rev l ++ [d]) eqn:E; [|reflexivity].
  now apply app_eq_nil in E as [_ E].
Qed.

Lemma last_rev (l : list ascii) : last (rev l) = head l.
Proof. rewrite <- head_rev, rev_involutive. reflexivity. Qed.

Lemma chars_inj (s t : string) : Str.chars s = Str.chars t -> s = t.
Proof.
  intros H. rewrite <- (string_of_list_ascii_of_string s),
    <- (string_of_list_ascii_of_string t). unfold Str.chars in H. now rewrite H.
Qed.

Lemma chars_trimSlashes (s : string) :
  Str.chars (Str.trimSlashes s)
  = rev (Str.drop_front Str.is_slash (rev (Str.drop_front Str.is_slash (Str.chars s)))).
Proof.
  unfold Str.trimSlashes. now rewrite chars_cut_trailing, chars_skip_leading.
Qed.

(** A string with no slash at either end is its own trimming. *)
Lemma trimSlashes_id (t : string) :
  head (Str.chars t) <> Some "/"%char ->
  last (Str.chars t) <> Some "/"%char ->
  Str.trimSlashes t = t.
Proof.
  intros Hh Hl. apply chars_inj. rewrite chars_trimSlashes.
  rewrite (drop_front_id (Str.chars t) Hh).
  rewrite drop_front_id by now rewrite head_rev.
  apply rev_involutive.
Qed.

Lemma trimSlashes_head (s : string) :
  head (Str.chars (Str.trimSlashes s)) <> Some "/"%char.
Proof.
  rewrite chars_trimSlashes.
  set (L := Str.drop_front Str.is_slash (Str.chars s)).
  destruct (drop_front_split (rev L)) as [m Hm].
  assert (HL : L = rev (Str.drop_front Str.is_slash (rev L)) ++ replicate m "/"%char).
  { rewrite <- (rev_involutive L) at 1. rewrite Hm at 1.
    now rewrite rev_app_distr, rev_replicate. }
  destruct (rev (Str.drop_front Str.is_slash (rev L))) as [|c R] eqn:ER;
    [discriminate|].
  pose proof (head_drop_front (Str.chars s)) as Hh. fold L in Hh.
  rewrite HL in Hh. exact Hh.
Qed.

Lemma trimSlashes_last (s : string) :
  last (Str.chars (Str.trimSlashes s)) <> Some "/"%char.
Proof. rewrite chars_trimSlashes, last_rev. apply head_drop_front. Qed.

(** X1: the trimming removes slashes from the two ends only: the string
    is its trimming between two runs of slashes, the trimming has no slash
    at either end, and trimming again changes nothing. *)
Theorem trimSlashes_shape (s : string) :
  (exists n m,
     Str.chars s
     = replicate n "/"%char ++ Str.chars (Str.trimSlashes s) ++ replicate m "/"%char) /\
  head (Str.chars (Str.trimSlashes s)) <> Some "/"%char /\
  last (Str.chars (Str.trimSlashes s)) <> Some "/"%char /\
  Str.trimSlashes (Str.trimSlashes s) = Str.trimSlashes s.
Proof.
  split; [|split; [apply trimSlashes_head|split; [apply trimSlashes_last|]]].
  - rewrite chars_trimSlashes.
    destruct (drop_front_split (Str.chars s)) as [n Hn].
    set (L := Str.drop_front Str.is_slash (Str.chars s)) in *.
    destruct (drop_front_split (rev L)) as [m Hm].
    exists n, m. rewrite Hn at 1. f_equal.
    rewrite <- (rev_involutive L) at 1. rewrite Hm at 1.
    now rewrite rev_app_distr, rev_replicate.
  - apply trimSlashes_id; [apply trimSlashes_head | apply trimSlashes_last].
Qed.

Lemma without_slash_length (s : string) :
  (String.length (Str.without_slash_before_colon s) <= String.length s)%nat.
Proof.
  induction s as [|c s IH]; simpl; [lia|].
  destruct (Str.is_slash c && Str.starts_with_colon s); simpl; lia.
Qed.

Lemma without_slash_shorter (a b : string) :
  (String.length (Str.without_slash_before_colon (a +:+ "/:" +:+ b))
   < String.length (a +:+ "/:" +:+ b))%nat.
Proof.
  induction a as [|c a IH].
  - change ("" +:+ "/:" +:+ b) with (String "/" (String ":" b)).
    change (Str.without_slash_before_colon (String "/" (String ":" b)))
      with (String ":" (Str.without_slash_before_colon b)).
    pose proof (without_slash_length b). simpl. lia.
  - change (String c a +:+ "/:" +:+ b) with (String c (a +:+ "/:" +:+ b)).
    simpl Str.without_slash_before_colon.
    pose proof (without_slash_length (a +:+ "/:" +:+ b)).
    destruct (Str.is_slash c && Str.starts_with_colon (a +:+ "/:" +:+ b));
      simpl; simpl in IH; lia.
Qed.

(** X2: the replacement of [/:] leaves a string as it is exactly when the
    string has no slash followed by a colon. *)
Theorem colonSeparators_fixed (s : string) :
  Str.colonSeparators s = s <-> ~ exists a b, s = a +:+ "/:" +:+ b.
Proof.
  rewrite colonSeparators_removes. split.
  - intros H [a [b Hs]]. pose proof (without_slash_shorter a b) as Hlt.
    rewrite <- Hs, H in Hlt. lia.
  - induction s as [|c s IH]; intros Hno; [reflexivity|]. simpl.
    destruct (Str.is_slash c && Str.starts_with_colon s) eqn:E.
    + exfalso. apply Hno. apply andb_true_iff in E as [Hc Hs].
      apply is_slash_true in Hc. subst c.
      destruct s as [|d s]; [discriminate|]. simpl in Hs.
      unfold Str.is_colon in Hs. apply Ascii.eqb_eq in Hs. subst d.
      exists "", s. reflexivity.
    + f_equal. apply IH. intros [a [b Hs]]. apply Hno.
      exists (String c a), b. simpl. now rewrite Hs.
Qed.

(* ===================================================================== *)
(** * More on Service.prototype.request *)
(* ===================================================================== *)

Lemma map_result_throws (l : list (option string)) :
  In None l -> map_result Service.trimComponent l = Throw TypeError.
Proof.
  induction l as [|c l IH]; intros H; [destruct H|].
  simpl in H |- *. destruct c as [s|]; [|reflexivity].
  destruct H as [H|H]; [discriminate|]. simpl. now rewrite IH.
Qed.

Lemma joinedUri_throws (s : Service.t) (r : ReqOpts) :
  uri r = None \/ (Service.projectIdRequired s = true /\ Service.projectId s = None) ->
  Service.joinedUri s r = Throw TypeError.
Proof.
  intros H. unfold Service.joinedUri. rewrite map_result_throws; [reflexivity|].
  unfold Service.uriComponents. apply in_or_app. right. apply in_or_app.
  destruct H as [H|[H1 H2]].
  - right. rewrite H. now left.
  - left. rewrite H1, H2. right. now left.
Qed.

Lemma joinedUri_returns (s : Service.t) (r : ReqOpts) :
  ~ (uri r = None \/ (Service.projectIdRequired s = true /\ Service.projectId s = None)) ->
  exists u, Service.joinedUri s r = Ok u.
Proof.
  intros H. unfold Service.joinedUri, Service.uriComponents.
  destruct (uri r) as [u|]; [|tauto].
  destruct (Service.projectIdRequired s).
  - destruct (Service.projectId s) as [p|]; [|tauto].
    change ([Some (Service.baseUrl s)] ++ [Some "projects"; Some p] ++ [Some u])
      with (map Some [Service.baseUrl s; "projects"; p; u]).
    rewrite map_result_trimComponent. eexists. reflexivity.
  - change ([Some (Service.baseUrl s)] ++ [] ++ [Some u])
      with (map Some [Service.baseUrl s; u]).
    rewrite map_result_trimComponent. eexists. reflexivity.
Qed.

(** X3: Service.request throws a TypeError, before any interceptor runs
    and without calling the transport, exactly when the [uri] is missing
    or the project is required and there is no [projectId]; in every
    other case it reaches the transport. *)
Theorem request_throws_iff (objs : iref -> Interceptor) (s : Service.t) (r : ReqOpts) :
  (Service.request objs s r = Throw TypeError
   <-> uri r = None \/
       (Service.projectIdRequired s = true /\ Service.projectId s = None)) /\
  ((exists x, Service.request objs s r = Ok x)
   <-> ~ (uri r = None \/
          (Service.projectIdRequired s = true /\ Service.projectId s = None))).
Proof.
  assert (Hdec : (uri r = None \/
                  (Service.projectIdRequired s = true /\ Service.projectId s = None))
                 \/ ~ (uri r = None \/
                       (Service.projectIdRequired s = true /\ Service.projectId s = None))).
  { destruct (uri r); destruct (Service.projectIdRequired s);
      destruct (Service.projectId s); intuition congruence. }
  destruct Hdec as [H|H].
  - pose proof (joinedUri_throws s r H) as Hj.
    assert (Ht : Service.request objs s r = Throw TypeError)
      by (unfold Service.request; rewrite Hj; reflexivity).
    split; split; intros; try tauto.
    destruct H0 as [x Hx]. congruence.
  - destruct (joinedUri_returns s r H) as [u Hu].
    pose proof (request_unfold objs s r u Hu) as Hr. cbv zeta in Hr.
    split; split; intros; try tauto; try congruence. eauto.
Qed.

(** X4: the loop applies, as a left fold, the interceptors at the head of
    the chain that have a [request], and stops at the first one that has
    none: that one and all behind it are not applied. *)
Theorem runInterceptors_leading (objs : iref -> Interceptor) (chain : list iref)
    (r : ReqOpts) :
  Service.runInterceptors objs chain r
  = fold_skipping objs (leading_requests objs chain) r
  /\ Forall (has_request objs) (leading_requests objs chain)
  /\ exists rest,
       chain = leading_requests objs chain ++ rest /\
       (forall i, head rest = Some i -> request (objs i) = None).
Proof.
  revert r. induction chain as [|i chain IH]; intros r.
  - split; [reflexivity|]. split; [constructor|]. exists []. split; [reflexivity|].
    discriminate.
  - simpl. destruct (request (objs i)) as [f|] eqn:E.
    + destruct (IH (f r)) as (H1 & H2 & rest & H3 & H4).
      split; [unfold fold_skipping; simpl; rewrite E; exact H1|].
      split; [constructor; [unfold has_request; rewrite E; eauto | exact H2]|].
      exists rest. split; [simpl; now rewrite <- H3 | exact H4].
    + split; [reflexivity|]. split; [constructor|].
      exists (i :: chain). split; [reflexivity|]. intros j Hj. now inversion Hj; subst.
Qed.

(* ===================================================================== *)
(** * More on the shared methods of ServiceObject *)
(* ===================================================================== *)

Section SharedMethods.

Variable objs : iref -> Interceptor.

Lemma get_success_callback (so : ServiceObject.t) (config : option (gmap string value))
    (st : gmap loc value) (x : Exchange) :
  ServiceObject.method_of so "getMetadata" = ServiceObject.Inherited ->
  ServiceObject.request objs so (ServiceObject.getMetadata_reqOpts so) = Ok x ->
  truthy (arg 0 (reply x)) = false ->
  ServiceObject.get objs so config st
  = Ok ([VNull; VInstance (ServiceObject.this so); arg 1 (reply x)],
        <[ServiceObject.this so := arg 1 (reply x)]> st).
Proof.
  intros Hslot Hreq Herr.
  unfold ServiceObject.get, ServiceObject.invoke. rewrite Hslot.
  unfold ServiceObject.getMetadata, mbind, M_bind, lift. rewrite Hreq, Herr.
  unfold write_metadata, read_metadata, metadata_at. cbn [mret M_ret].
  rewrite lookup_insert_eq. reflexivity.
Qed.

(** X5: when the metadata request comes back without an error, [get]
    calls back with [null], the instance itself and the response body, and
    the instance caches that body; the [config] plays no part, nothing is
    created. *)
Theorem get_returns_this_instance (so : ServiceObject.t)
    (config : option (gmap string value)) (st : gmap loc value) (x : Exchange) :
  ServiceObject.method_of so "getMetadata" = ServiceObject.Inherited ->
  ServiceObject.request objs so (ServiceObject.getMetadata_reqOpts so) = Ok x ->
  truthy (arg 0 (reply x)) = false ->
  exists st',
    ServiceObject.get objs so config st
    = Ok ([VNull; VInstance (ServiceObject.this so); arg 1 (reply x)], st') /\
    metadata_at st' (ServiceObject.this so) = arg 1 (reply x) /\
    forall l, l <> ServiceObject.this so -> st' !! l = st !! l.
Proof.
  intros Hslot Hreq Herr. eexists. split; [now apply get_success_callback|].
  split.
  - unfold metadata_at. now rewrite lookup_insert_eq.
  - intros l Hl. now rewrite lookup_insert_ne.
Qed.

(** X6: [exists] answers [false] for the status 404 and [true] when the
    metadata request succeeds; any other error is handed on alone, with
    no second argument.  Only the successful case changes the cache. *)
Theorem exists_outcomes (so : ServiceObject.t) (st : gmap loc value) (x : Exchange) :
  ServiceObject.method_of so "get" = ServiceObject.Inherited ->
  ServiceObject.method_of so "getMetadata" = ServiceObject.Inherited ->
  ServiceObject.request objs so (ServiceObject.getMetadata_reqOpts so) = Ok x ->
  ServiceObject.exists_ objs so st
  = if truthy (arg 0 (reply x))
    then if ServiceObject.is_404 (arg 0 (reply x))
         then Ok ([VNull; VBool false], st)
         else Ok ([arg 0 (reply x)], st)
    else Ok ([VNull; VBool true],
             <[ServiceObject.this so := arg 1 (reply x)]> st).
Proof.
  intros Hget Hmd Hreq.
  unfold ServiceObject.exists_, ServiceObject.invoke. rewrite Hget.
  unfold mbind, M_bind.
  destruct (truthy (arg 0 (reply x))) eqn:Herr.
  - rewrite (get_error_callback objs so None st x Hmd Hreq Herr).
    + change (arg 0 [arg 0 (reply x); VNull; VNull]) with (arg 0 (reply x)).
      rewrite Herr. destruct (ServiceObject.is_404 (arg 0 (reply x))); reflexivity.
    + change (default ∅ None) with (∅ : gmap string value).
      rewrite lookup_empty. simpl. apply andb_false_r.
  - rewrite (get_success_callback so None st x Hmd Hreq Herr). reflexivity.
Qed.

(** X7: on the status 404 with [autoCreate] set, [get] hands over to
    [create] with the rest of the [config]: [createMethod] is called with
    the [id] alone when [autoCreate] was the only key, and with the [id]
    and the [config] without [autoCreate] otherwise. *)
Theorem get_autoCreate (so : ServiceObject.t) (config : gmap string value)
    (st : gmap loc value) (x : Exchange) :
  ServiceObject.method_of so "getMetadata" = ServiceObject.Inherited ->
  ServiceObject.method_of so "create" = ServiceObject.Inherited ->
  ServiceObject.request objs so (ServiceObject.getMetadata_reqOpts so) = Ok x ->
  truthy (arg 0 (reply x)) = true ->
  ServiceObject.is_404 (arg 0 (reply x)) = true ->
  truthy (default VUndefined (config !! "autoCreate")) = true ->
  let rest := base.delete "autoCreate" config in
  let options := if bool_decide (rest = ∅) then None else Some (VObject rest) in
  ServiceObject.get objs so (Some config) st = ServiceObject.create so options st /\
  ServiceObject.createArgs so options
  = VString (ServiceObject.id so)
    :: (if bool_decide (rest = ∅) then [] else [VObject rest]) /\
  rest !! "autoCreate" = None.
Proof.
  intros Hmd Hcreate Hreq Herr H404 Hauto rest options. split; [|split].
  - unfold ServiceObject.get, ServiceObject.invoke. rewrite Hmd, Hcreate.
    unfold ServiceObject.getMetadata, mbind at 1, M_bind at 1, lift.
    unfold mbind at 1, M_bind at 1. rewrite Hreq, Herr. cbn [mret M_ret].
    change (arg 0 [arg 0 (reply x); VNull; arg 1 (reply x)])
      with (arg 0 (reply x)).
    change (default ∅ (Some config)) with config.
    rewrite Herr, H404, Hauto. cbn [ServiceObject.is_fn andb].
    fold rest. unfold options. destruct (bool_decide (rest = ∅)); reflexivity.
  - unfold options, ServiceObject.createArgs.
    destruct (bool_decide (rest = ∅)); reflexivity.
  - apply lookup_delete_eq.
Qed.

(** X8: when [createMethod] calls back with an error, [create] hands on
    the very same arguments and assigns nothing to the cached metadata. *)
Theorem create_error_passes_through (so : ServiceObject.t) (options : option value)
    (createMethod : ServiceObject.Method) (st st1 : gmap loc value)
    (args : list value) :
  ServiceObject.createMethod so = Some createMethod ->
  createMethod (ServiceObject.createArgs so options) st = Ok (args, st1) ->
  truthy (arg 0 args) = true ->
  ServiceObject.create so options st = Ok (args, st1).
Proof.
  intros Hc Hrun Herr. unfold ServiceObject.create. rewrite Hc.
  unfold mbind, M_bind. rewrite Hrun. unfold ServiceObject.onCreate.
  now rewrite Herr.
Qed.

(** X9: [create] throws a TypeError when the instance has no
    [createMethod], and when [createMethod] calls back without an error
    but with no instance ([undefined] or [null]). *)
Theorem create_throws (so : ServiceObject.t) (options : option value)
    (st : gmap loc value) :
  (ServiceObject.createMethod so = None ->
   ServiceObject.create so options st = Throw TypeError) /\
  (forall createMethod args st1,
     ServiceObject.createMethod so = Some createMethod ->
     createMethod (ServiceObject.createArgs so options) st = Ok (args, st1) ->
     truthy (arg 0 args) = false ->
     arg 1 args = VUndefined \/ arg 1 args = VNull ->
     ServiceObject.create so options st = Throw TypeError).
Proof.
  split.
  - intros Hc. unfold ServiceObject.create. now rewrite Hc.
  - intros cm args st1 Hc Hrun Herr Hinst. unfold ServiceObject.create.
    rewrite Hc. unfold mbind, M_bind. rewrite Hrun.
    unfold ServiceObject.onCreate. rewrite Herr.
    unfold mbind, M_bind. destruct Hinst as [-> | ->]; reflexivity.
Qed.

(** X10: [getMetadata] and [setMetadata] never change the cached
    metadata of another instance, and [delete] changes no cached metadata
    at all: it calls back with the error and the response of its DELETE
    request. *)
Theorem methods_keep_other_metadata (so : ServiceObject.t) (metadata : value)
    (st : gmap loc value) :
  (forall args st',
     ServiceObject.getMetadata objs so st = Ok (args, st') ->
     forall l, l <> ServiceObject.this so -> st' !! l = st !! l) /\
  (forall args st',
     ServiceObject.setMetadata objs so metadata st = Ok (args, st') ->
     forall l, l <> ServiceObject.this so -> st' !! l = st !! l) /\
  (forall x,
     ServiceObject.request objs so
       (extend (mkReqOpts (Some "") (Some "DELETE") None None Absent)
          (ServiceObject.entry_reqOpts (ServiceObject.methods so !! "delete")))
     = Ok x ->
     ServiceObject.delete objs so st = Ok ([arg 0 (reply x); arg 1 (reply x)], st)).
Proof.
  split; [|split].
  - intros args st'. unfold ServiceObject.getMetadata, mbind, M_bind, lift.
    destruct (ServiceObject.request objs so (ServiceObject.getMetadata_reqOpts so))
      as [x|e]; [|discriminate].
    destruct (truthy (arg 0 (reply x))); cbn; intros H; inversion H; subst;
      intros l Hl; [reflexivity | now rewrite lookup_insert_ne].
  - intros args st'. unfold ServiceObject.setMetadata, mbind, M_bind, lift.
    destruct (ServiceObject.request objs so
                (ServiceObject.setMetadata_reqOpts so metadata))
      as [x|e]; [|discriminate].
    destruct (truthy (arg 0 (reply x))); cbn; intros H; inversion H; subst;
      intros l Hl; [reflexivity | now rewrite lookup_insert_ne].
  - intros x Hx. unfold ServiceObject.delete, mbind, M_bind, lift.
    rewrite Hx. reflexivity.
Qed.

End SharedMethods.

(* ===================================================================== *)
(** * More on the constructor and on the paths of nested resources *)
(* ===================================================================== *)

(** X11: a constructor called without a [methods] map removes nothing,
    while one called with an empty map removes every shared method other
    than [request] that the class did not define itself; either way the
    instance starts with the metadata [{}] and no interceptors. *)
Theorem constructor_without_methods (l : loc)
    (subclass : gmap string ServiceObject.Method) (config : ServiceObject.Config)
    (st : gmap loc value) :
  (ServiceObject.config_methods config = None \/
   ServiceObject.config_methods config = Some ∅) ->
  exists so,
    ServiceObject.new l subclass config st = Ok (so, <[l := VObject ∅]> st) /\
    ServiceObject.interceptors so = [] /\
    ServiceObject.methods so = ∅ /\
    forall name, name ∈ ServiceObject.allMethodNames ->
      (ServiceObject.config_methods config = None ->
       ServiceObject.method_of so name =
       ServiceObject.method_of (ServiceObject.initial l subclass config) name /\
       ServiceObject.is_fn (ServiceObject.method_of so name) = true) /\
      (ServiceObject.config_methods config = Some ∅ ->
       ServiceObject.is_fn (ServiceObject.method_of so name) = true
       <-> name = "request" \/ is_Some (subclass !! name)).
Proof.
  intros [Hm|Hm].
  - exists (ServiceObject.initial l subclass config).
    split; [unfold ServiceObject.new; rewrite Hm; reflexivity|].
    split; [reflexivity|].
    split; [unfold ServiceObject.initial; simpl; now rewrite Hm|].
    intros name _. split; [|congruence]. intros _. split; [reflexivity|].
    rewrite method_of_initial. destruct (subclass !! name); reflexivity.
  - exists (ServiceObject.undefine
              (ServiceObject.unwanted (ServiceObject.initial l subclass config) ∅)
              (ServiceObject.initial l subclass config)).
    split; [unfold ServiceObject.new; rewrite Hm; reflexivity|].
    split; [reflexivity|].
    split; [unfold ServiceObject.undefine, ServiceObject.initial; simpl;
            now rewrite Hm|].
    intros name Hname. split; [congruence|]. intros _.
    rewrite method_of_undefine.
    pose proof (unwanted_spec (ServiceObject.initial l subclass config) ∅ name)
      as Hspec.
    rewrite method_of_initial in *. rewrite lookup_empty in Hspec.
    case_bool_decide as Hin.
    + apply Hspec in Hin as (_ & Hreq & Hinh & _).
      destruct (subclass !! name) as [f|] eqn:Hsub; [discriminate|].
      simpl. split; [discriminate|]. intros [H|[f H]]; congruence.
    + destruct (subclass !! name) as [f|] eqn:Hsub.
      * simpl. split; eauto.
      * simpl. split; [|reflexivity]. intros _.
        destruct (decide (name = "request")) as [Heq|Hne]; [now left|].
        exfalso. apply Hin, Hspec. auto.
Qed.

Section Paths.

Variable objs : iref -> Interceptor.

Lemma prepare_path (b i : string) (ints : list iref) (r : ReqOpts) (u : string) :
  uri r = Some u ->
  ServiceObject.prepare b i ints r
  = Ok (with_interceptors_ ints (with_uri (object_path b i u) r)).
Proof.
  intros Hu. unfold ServiceObject.prepare, object_path. rewrite Hu.
  now rewrite filter_exec_trim, map_trimSlashes.
Qed.

(** X12: a request of an object nested below another object goes to the
    service with the path of the inner object below the path of the
    outer one, and with the interceptors of the outer object only: those
    of the inner object are not in the chain. *)
Theorem nested_request (so o : ServiceObject.t) (s : Service.t) (r : ReqOpts)
    (u : string) :
  ServiceObject.parent so = ServiceObject.ObjectParent o ->
  ServiceObject.parent o = ServiceObject.ServiceParent s ->
  uri r = Some u ->
  let path :=
    object_path (ServiceObject.baseUrl o) (ServiceObject.id o)
      (object_path (ServiceObject.baseUrl so) (ServiceObject.id so) u) in
  let passed := with_interceptors_ (ServiceObject.interceptors o) (with_uri path r) in
  ServiceObject.request objs so r = Service.request objs s passed /\
  Service.combinedInterceptors s passed
  = Service.globalInterceptors s ++ Service.interceptors s
    ++ ServiceObject.interceptors o.
Proof.
  intros Hp Ho Hu path passed. split; [|reflexivity].
  rewrite (request_delegates objs so r _ (prepare_path _ _ _ r u Hu)).
  rewrite Hp. cbn [ServiceObject.parent_request].
  rewrite (request_delegates objs o _ _
             (prepare_path (ServiceObject.baseUrl o) (ServiceObject.id o)
                (ServiceObject.interceptors o)
                (with_interceptors_ (ServiceObject.interceptors so)
                   (with_uri (object_path (ServiceObject.baseUrl so)
                                (ServiceObject.id so) u) r))
                (object_path (ServiceObject.baseUrl so) (ServiceObject.id so) u)
                eq_refl)).
  rewrite Ho. reflexivity.
Qed.

End Paths.

Lemma slashes_trim_empty (i : string) :
  Str.all_chars Str.is_slash i = true -> Str.trimSlashes i = "".
Proof.
  intros H. unfold Str.trimSlashes.
  destruct (Str.skip_leading Str.is_slash i) as [|c t] eqn:E; [reflexivity|].
  change (Str.cut_trailing Str.is_slash (String c t))
    with (if Str.all_chars Str.is_slash (String c t) then EmptyString
          else String c (Str.cut_trailing Str.is_slash t)).
  now rewrite <- E, all_chars_skip_leading, H.
Qed.

Lemma slashes_not_blank (i : string) :
  i <> "" -> Str.all_chars Str.is_slash i = true -> Str.exec_trim i = true.
Proof.
  intros Hne H. apply exec_trim_not_blank. intros Hb.
  destruct i as [|c i]; [congruence|].
  simpl in H. apply andb_true_iff in H as [Hc _]. apply is_slash_true in Hc.
  subst c. unfold Str.blank in Hb. simpl in Hb. inversion Hb as [|? ? Hs _].
  discriminate Hs.
Qed.

(** X13: when [baseUrl], [id] and [uri] are all blank the [uri] passed on
    is the empty string; an [id] made of slashes only is not blank, so it
    is not dropped: it is joined as an empty segment and leaves a double
    slash between the other two. *)
Theorem object_request_edges (b i u : string) (ints : list iref) (r : ReqOpts) :
  uri r = Some u ->
  (Str.blank b -> Str.blank i -> Str.blank u ->
   ServiceObject.prepare b i ints r
   = Ok (with_interceptors_ ints (with_uri "" r))) /\
  (~ Str.blank b -> ~ Str.blank u ->
   i <> "" -> Str.all_chars Str.is_slash i = true ->
   ServiceObject.prepare b i ints r
   = Ok (with_interceptors_ ints
           (with_uri (Str.trimSlashes b +:+ "//" +:+ Str.trimSlashes u) r))).
Proof.
  intros Hr. unfold ServiceObject.prepare. rewrite Hr. split.
  - intros Hb Hi Hu. rewrite filter_exec_trim.
    rewrite !filter_cons, filter_nil.
    rewrite !decide_False by tauto. reflexivity.
  - intros Hb Hu Hne Hall.
    apply exec_trim_not_blank in Hb, Hu.
    pose proof (slashes_not_blank i Hne Hall) as Hi.
    cbn [List.filter]. rewrite Hb, Hi, Hu. cbn [map].
    rewrite (slashes_trim_empty i Hall). reflexivity.
Qed.

Lemma chars_append (a b : string) :
  Str.chars (a +:+ b) = Str.chars a ++ Str.chars b.
Proof.
  induction a as [|c a IH]; [reflexivity|].
  change (Str.chars (String c a +:+ b)) with (c :: Str.chars (a +:+ b)).
  now rewrite IH.
Qed.

(** A string that is not empty and has no slash at either end. *)
Lemma segment_ends (k : string) :
  has_segment k ->
  let t := Str.trimmed_of Str.is_slash k in
  t <> "" /\ head (Str.chars t) <> Some "/"%char /\ last (Str.chars t) <> Some "/"%char.
Proof.
  intros Hk t. split; [exact Hk|]. unfold t. rewrite <- trimSlashes_trimmed.
  split; [apply trimSlashes_head | apply trimSlashes_last].
Qed.

Lemma joined_ends (l : list string) :
  l <> [] ->
  Forall (fun t => t <> "" /\ head (Str.chars t) <> Some "/"%char /\
                   last (Str.chars t) <> Some "/"%char) l ->
  String.concat "/" l <> "" /\
  head (Str.chars (String.concat "/" l)) <> Some "/"%char /\
  last (Str.chars (String.concat "/" l)) <> Some "/"%char.
Proof.
  induction l as [|x l IH]; [congruence|]. intros _ Hall.
  inversion Hall as [|? ? (Hne & Hh & Hl) Hrest]; subst.
  destruct l as [|y l]; [simpl; auto|].
  destruct (IH ltac:(discriminate) Hrest) as (Jne & Jh & Jl).
  change (String.concat "/" (x :: y :: l))
    with (x +:+ "/" +:+ String.concat "/" (y :: l)).
  set (J := String.concat "/" (y :: l)) in *.
  destruct x as [|c x]; [congruence|].
  split; [discriminate|]. split; [exact Hh|].
  rewrite chars_append, chars_append.
  destruct (Str.chars J) as [|d cs] eqn:EJ.
  - exfalso. apply Jne. apply chars_inj. now rewrite EJ.
  - change (Str.chars "/" ++ d :: cs) with ("/"%char :: d :: cs).
    rewrite last_app_cons.
    change (last ("/"%char :: d :: cs)) with (last (d :: cs)). exact Jl.
Qed.

Lemma concat_flatten (P K : list string) :
  K <> [] ->
  String.concat "/" (P ++ [String.concat "/" K]) = String.concat "/" (P ++ K).
Proof.
  intros HK. induction P as [|x P IH]; [reflexivity|].
  simpl app. destruct K as [|k K]; [congruence|].
  destruct P as [|y P].
  - reflexivity.
  - change (String.concat "/" (x :: (y :: P) ++ [String.concat "/" (k :: K)]))
      with (x +:+ "/" +:+ String.concat "/" ((y :: P) ++ [String.concat "/" (k :: K)])).
    rewrite IH. reflexivity.
Qed.

(** X14: for an object directly below a service, whose segments are not
    made of slashes only, the [uri] that the service assigns is the flat
    join of the service's segments and the object's: the base URL,
    "projects" and the project when required, then the [baseUrl], [id]
    and [uri] of the object that are not blank. *)
Theorem object_request_flat_uri (objs : iref -> Interceptor) (so : ServiceObject.t)
    (s : Service.t) (r : ReqOpts) (u : string) (prefix : list string) :
  ServiceObject.parent so = ServiceObject.ServiceParent s ->
  uri r = Some u ->
  (if Service.projectIdRequired s
   then exists p, Service.projectId s = Some p /\
                  prefix = [Service.baseUrl s; "projects"; p]
   else prefix = [Service.baseUrl s]) ->
  let kept :=
    filter (fun k => ~ Str.blank k)
      [ServiceObject.baseUrl so; ServiceObject.id so; u] in
  kept <> [] ->
  Forall has_segment kept ->
  exists passed,
    ServiceObject.request objs so r = Service.request objs s passed /\
    Service.joinedUri s passed
    = Ok (Str.without_slash_before_colon
            (String.concat "/" (map (Str.trimmed_of Str.is_slash) (prefix ++ kept)))).
Proof.
  intros Hp Hu Hprefix kept Hne Hall.
  set (path := object_path (ServiceObject.baseUrl so) (ServiceObject.id so) u).
  exists (with_interceptors_ (ServiceObject.interceptors so) (with_uri path r)).
  split.
  - rewrite (request_delegates objs so r _ (prepare_path _ _ _ r u Hu)).
    rewrite Hp. reflexivity.
  - rewrite (joinedUri_strings _ _ (prefix ++ [path])).
    + f_equal. f_equal. rewrite !map_app. simpl map.
      assert (Hpath : Str.trimmed_of Str.is_slash path = path).
      { rewrite <- trimSlashes_trimmed.
        destruct (joined_ends (map (Str.trimmed_of Str.is_slash) kept))
          as (_ & Hh & Hl).
        - destruct kept; [congruence | discriminate].
        - apply Forall_map. eapply Forall_impl; [exact Hall|].
          intros k Hk. apply (segment_ends k Hk).
        - now apply trimSlashes_id. }
      rewrite Hpath. unfold path, object_path. fold kept.
      apply concat_flatten. destruct kept; [congruence | discriminate].
    + unfold Service.uriComponents. cbn [uri with_interceptors_ with_uri].
      destruct (Service.projectIdRequired s).
      * destruct Hprefix as [p [Hpid ->]]. rewrite Hpid. reflexivity.
      * subst prefix. reflexivity.
Qed.

(* ===================================================================== *)
(** * The added properties on the samples *)
(* ===================================================================== *)

Lemma get_returns_this_instance_witness :
  exists st',
    ServiceObject.get Sample.objs Sample.bucket None ∅
    = Ok ([VNull; VInstance 10%positive;
           VString "https://www.googleapis.com/storage/v1/projects/grape-spaceship-123/b/photos"],
          st').
Proof.
  destruct (get_returns_this_instance Sample.objs Sample.bucket None ∅ _
              eq_refl eq_refl eq_refl) as [st' [W _]].
  exists st'. exact W.
Defined.

Lemma exists_outcomes_witness :
  ServiceObject.exists_ Sample.objs Sample.missing_bucket ∅
  = Ok ([VNull; VBool false], ∅).
Proof.
  exact (exists_outcomes Sample.objs Sample.missing_bucket ∅ _
           eq_refl eq_refl eq_refl).
Defined.

Lemma get_autoCreate_witness :
  ServiceObject.get Sample.objs Sample.missing_bucket
    (Some {[ "autoCreate" := VBool true ]}) ∅
  = ServiceObject.create Sample.missing_bucket None ∅.
Proof.
  pose proof (get_autoCreate Sample.objs Sample.missing_bucket
                {[ "autoCreate" := VBool true ]} ∅ _
                eq_refl eq_refl eq_refl eq_refl eq_refl eq_refl) as W.
  cbv zeta in W. destruct W as [W _]. exact W.
Defined.

Lemma create_error_passes_through_witness :
  ServiceObject.create
    (Sample.object 10%positive Sample.storage [] (Some Sample.createConflict))
    None ∅
  = Ok (Sample.conflict, ∅).
Proof.
  exact (create_error_passes_through
           (Sample.object 10%positive Sample.storage [] (Some Sample.createConflict))
           None Sample.createConflict ∅ ∅ Sample.conflict
           eq_refl eq_refl eq_refl).
Defined.

Lemma create_throws_witness :
  ServiceObject.create Sample.bucket None ∅ = Throw TypeError.
Proof.
  exact (proj1 (create_throws Sample.bucket None ∅) eq_refl).
Defined.

Lemma methods_keep_other_metadata_witness :
  ServiceObject.delete Sample.objs Sample.bucket
    {[ 10%positive := Sample.created_metadata ]}
  = Ok ([VNull;
         VString "https://www.googleapis.com/storage/v1/projects/grape-spaceship-123/b/photos"],
        {[ 10%positive := Sample.created_metadata ]}).
Proof.
  destruct (methods_keep_other_metadata Sample.objs Sample.bucket VNull
              {[ 10%positive := Sample.created_metadata ]}) as (_ & _ & W).
  exact (W _ eq_refl).
Defined.

Lemma constructor_without_methods_witness :
  exists so,
    ServiceObject.new 10%positive ∅
      (ServiceObject.mkConfig "/b" None "photos" None
         (ServiceObject.ServiceParent Sample.storage)) ∅
    = Ok (so, {[ 10%positive := VObject ∅ ]}) /\
    ServiceObject.interceptors so = [].
Proof.
  destruct (constructor_without_methods 10%positive ∅
              (ServiceObject.mkConfig "/b" None "photos" None
                 (ServiceObject.ServiceParent Sample.storage)) ∅
              (or_introl eq_refl)) as [so (W1 & W2 & _)].
  exists so. split; [exact W1 | exact W2].
Defined.

Lemma nested_request_witness :
  exists x,
    ServiceObject.request Sample.objs Sample.table (Sample.opts "/rows" Absent) = Ok x /\
    uri (sent x)
    = Some "https://www.googleapis.com/storage/v1/projects/grape-spaceship-123/datasets/kittens/tables/names/rows" /\
    header Sample.trace (sent x) = Some "object".
Proof.
  pose proof (nested_request Sample.objs Sample.table Sample.dataset Sample.storage
                (Sample.opts "/rows" Absent) "/rows" eq_refl eq_refl eq_refl) as W.
  cbv zeta in W. destruct W as [W _].
  eexists. split; [exact W|]. split; vm_compute; reflexivity.
Defined.

Lemma object_request_edges_witness :
  ServiceObject.prepare "/b" "//" [] (Sample.opts "o" Absent)
  = Ok (with_interceptors_ [] (with_uri "b//o" (Sample.opts "o" Absent))).
Proof.
  apply (proj2 (object_request_edges "/b" "//" "o" [] (Sample.opts "o" Absent)
                  eq_refl)).
  - intros H. vm_compute in H. inversion H as [|? ? Hs _]. discriminate Hs.
  - intros H. vm_compute in H. inversion H as [|? ? Hs _]. discriminate Hs.
  - discriminate.
  - reflexivity.
Defined.

Lemma object_request_flat_uri_witness :
  exists passed,
    ServiceObject.request Sample.objs Sample.bucket (Sample.opts "/o/" Absent)
    = Service.request Sample.objs Sample.storage passed /\
    Service.joinedUri Sample.storage passed
    = Ok "https://www.googleapis.com/storage/v1/projects/grape-spaceship-123/b/photos/o".
Proof.
  apply (object_request_flat_uri Sample.objs Sample.bucket Sample.storage
           (Sample.opts "/o/" Absent) "/o/"
           [Service.baseUrl Sample.storage; "projects"; "grape-spaceship-123"]
           eq_refl eq_refl
           (ex_intro _ "grape-spaceship-123" (conj eq_refl eq_refl))).
  - vm_compute. discriminate.
  - vm_compute. repeat constructor; discriminate.
Defined.

(* ===================================================================== *)
(** * What the pipeline leaves alone, and what a removed method breaks *)
(* ===================================================================== *)

Section Untouched.

Variable objs : iref -> Interceptor.

Lemma runInterceptors_keeps {A : Type} (proj : ReqOpts -> A) (chain : list iref)
    (r : ReqOpts) :
  Forall (fun i => forall f, request (objs i) = Some f ->
                             forall r', proj (f r') = proj r') chain ->
  proj (Service.runInterceptors objs chain r) = proj r.
Proof.
  intros H. revert r. induction H as [|i chain Hi _ IH]; intros r; simpl.
  - reflexivity.
  - destruct (request (objs i)) as [f|] eqn:E; [|reflexivity].
    rewrite IH. now apply Hi.
Qed.

(** X15: a property of the request options that no interceptor of the
    chain changes, and that is not [interceptors_], reaches the transport
    as it was after the [uri] was assigned; so the transport gets the
    joined [uri] unless an interceptor rewrites it. *)
Theorem request_keeps_untouched {A : Type} (proj : ReqOpts -> A) (s : Service.t)
    (r : ReqOpts) (u : string) (x : Exchange) :
  (forall r', proj (delete_interceptors_ r') = proj r') ->
  Service.joinedUri s r = Ok u ->
  Forall (fun i => forall f, request (objs i) = Some f ->
                             forall r', proj (f r') = proj r')
         (Service.combinedInterceptors s r) ->
  Service.request objs s r = Ok x ->
  proj (sent x) = proj (with_uri u r).
Proof.
  intros Hdel Hu Hkeep Hx.
  rewrite (request_unfold objs s r u Hu) in Hx. inversion Hx. cbn [sent].
  rewrite Hdel. now apply runInterceptors_keeps.
Qed.

(** X16: an instance built with a [methods] map that keeps [get] but has
    no truthy entry for [getMetadata] cannot be fetched: [get] calls the
    removed [getMetadata] and throws a TypeError, whatever the [config]. *)
Theorem get_needs_getMetadata (l : loc) (subclass : gmap string ServiceObject.Method)
    (config : ServiceObject.Config) (wanted : gmap string ServiceObject.MethodEntry)
    (st st' : gmap loc value) (so : ServiceObject.t)
    (cfg : option (gmap string value)) :
  ServiceObject.config_methods config = Some wanted ->
  ServiceObject.entry_truthy (wanted !! "getMetadata") = false ->
  subclass !! "getMetadata" = None ->
  ServiceObject.new l subclass config st = Ok (so, st') ->
  ServiceObject.method_of so "getMetadata" = ServiceObject.Removed /\
  ServiceObject.get objs so cfg st' = Throw TypeError.
Proof.
  intros Hm Hwant Hsub Hnew.
  unfold ServiceObject.new in Hnew. rewrite Hm in Hnew. inversion Hnew as [[Hso Hst]].
  assert (Hrem : ServiceObject.method_of
                   (ServiceObject.undefine
                      (ServiceObject.unwanted
                         (ServiceObject.initial l subclass config) wanted)
                      (ServiceObject.initial l subclass config)) "getMetadata"
                 = ServiceObject.Removed).
  { rewrite method_of_undefine. rewrite bool_decide_eq_true_2; [reflexivity|].
    apply unwanted_spec. rewrite method_of_initial, Hsub.
    repeat split; try assumption; try discriminate.
    apply list_elem_of_In. simpl. tauto. }
  split; [exact Hrem|].
  unfold ServiceObject.get, ServiceObject.invoke. rewrite Hrem.
  reflexivity.
Qed.

End Untouched.

Lemma append_slash_assoc (x J : string) :
  x +:+ "/" +:+ (J +:+ "/") = (x +:+ "/" +:+ J) +:+ "/".
Proof.
  induction x as [|c x IH]; [reflexivity|].
  change (String c x +:+ "/" +:+ (J +:+ "/"))
    with (String c (x +:+ "/" +:+ (J +:+ "/"))).
  rewrite IH. reflexivity.
Qed.

Lemma concat_empty_last (P : list string) :
  P <> [] -> String.concat "/" (P ++ [""]) = String.concat "/" P +:+ "/".
Proof.
  induction P as [|x P IH]; [congruence|]. intros _.
  destruct P as [|y P].
  - reflexivity.
  - change (String.concat "/" ((x :: y :: P) ++ [""]))
      with (x +:+ "/" +:+ String.concat "/" ((y :: P) ++ [""])).
    rewrite IH by discriminate.
    change (String.concat "/" (x :: y :: P))
      with (x +:+ "/" +:+ String.concat "/" (y :: P)).
    apply append_slash_assoc.
Qed.

(** X17: Service.request does not drop an empty [uri]: it is joined as a
    last, empty segment, so the path ends with a slash. *)
Theorem request_empty_uri (s : Service.t) (r : ReqOpts) (prefix : list string) :
  uri r = Some "" ->
  (if Service.projectIdRequired s
   then exists p, Service.projectId s = Some p /\
                  prefix = [Service.baseUrl s; "projects"; p]
   else prefix = [Service.baseUrl s]) ->
  Service.joinedUri s r
  = Ok (Str.without_slash_before_colon
          (String.concat "/" (map (Str.trimmed_of Str.is_slash) prefix) +:+ "/")).
Proof.
  intros Hu Hprefix.
  rewrite (joinedUri_strings s r (prefix ++ [""])).
  - rewrite map_app. simpl map.
    change (Str.trimmed_of Str.is_slash "") with "".
    rewrite concat_empty_last; [reflexivity|].
    destruct (Service.projectIdRequired s).
    + destruct Hprefix as [p [_ ->]]. discriminate.
    + subst prefix. discriminate.
  - unfold Service.uriComponents. rewrite Hu.
    destruct (Service.projectIdRequired s).
    + destruct Hprefix as [p [Hp ->]]. rewrite Hp. reflexivity.
    + subst prefix. reflexivity.
Qed.

(** X18: [autoCreate] is ignored by an instance that has no [create]
    method: on the status 404 [get] calls back with the error and creates
    nothing. *)
Theorem get_autoCreate_without_create (objs : iref -> Interceptor)
    (so : ServiceObject.t) (config : gmap string value) (st : gmap loc value)
    (x : Exchange) :
  ServiceObject.method_of so "getMetadata" = ServiceObject.Inherited ->
  ServiceObject.method_of so "create" = ServiceObject.Removed ->
  ServiceObject.request objs so (ServiceObject.getMetadata_reqOpts so) = Ok x ->
  truthy (arg 0 (reply x)) = true ->
  ServiceObject.get objs so (Some config) st
  = Ok ([arg 0 (reply x); VNull; VNull], st).
Proof.
  intros Hmd Hcreate Hreq Herr.
  apply (get_error_callback objs so (Some config) st x Hmd Hreq Herr).
  rewrite Hcreate. simpl. now rewrite !andb_false_r.
Qed.

Lemma get_autoCreate_without_create_witness :
  exists err,
    ServiceObject.get Sample.objs
      (ServiceObject.undefine ["create"] Sample.missing_bucket)
      (Some {[ "autoCreate" := VBool true ]}) ∅
    = Ok ([err; VNull; VNull], ∅) /\ ServiceObject.is_404 err = true.
Proof.
  eexists. split.
  - apply (get_autoCreate_without_create Sample.objs
             (ServiceObject.undefine ["create"] Sample.missing_bucket)
             {[ "autoCreate" := VBool true ]} ∅ _ eq_refl eq_refl eq_refl eq_refl).
  - vm_compute. reflexivity.
Defined.

Lemma request_keeps_untouched_witness :
  exists x,
    Service.request Sample.objs Sample.storage (Sample.opts "o" (Items [4%positive]))
    = Ok x /\
    uri (sent x)
    = Some "https://www.googleapis.com/storage/v1/projects/grape-spaceship-123/o".
Proof.
  eexists. split; [reflexivity|].
  apply (request_keeps_untouched Sample.objs uri Sample.storage
           (Sample.opts "o" (Items [4%positive]))
           "https://www.googleapis.com/storage/v1/projects/grape-spaceship-123/o").
  - reflexivity.
  - vm_compute. reflexivity.
  - vm_compute. repeat constructor; intros f Hf r'; inversion Hf; reflexivity.
  - reflexivity.
Defined.

Lemma get_needs_getMetadata_witness :
  exists so,
    ServiceObject.new 10%positive ∅
      (ServiceObject.mkConfig "/b" None "photos"
         (Some {[ "get" := ServiceObject.Flag (VBool true) ]})
         (ServiceObject.ServiceParent Sample.storage)) ∅
    = Ok (so, {[ 10%positive := VObject ∅ ]}) /\
    ServiceObject.get Sample.objs so None {[ 10%positive := VObject ∅ ]}
    = Throw TypeError.
Proof.
  eexists. split; [vm_compute; reflexivity|].
  apply (get_needs_getMetadata Sample.objs 10%positive ∅
           (ServiceObject.mkConfig "/b" None "photos"
              (Some {[ "get" := ServiceObject.Flag (VBool true) ]})
              (ServiceObject.ServiceParent Sample.storage))
           {[ "get" := ServiceObject.Flag (VBool true) ]} ∅
           {[ 10%positive := VObject ∅ ]} _ None eq_refl);
    vm_compute; reflexivity.
Defined.

Lemma request_empty_uri_witness :
  Service.joinedUri Sample.storage (Sample.opts "" Absent)
  = Ok "https://www.googleapis.com/storage/v1/projects/grape-spaceship-123/".
Proof.
  exact (request_empty_uri Sample.storage (Sample.opts "" Absent)
           [Service.baseUrl Sample.storage; "projects"; "grape-spaceship-123"]
           eq_refl (ex_intro _ "grape-spaceship-123" (conj eq_refl eq_refl))).
Defined.
